(** * kcpraw: session establishment over raw, multiplexed and plain-UDP transports

    A shallow embedding of [sess.go] (package [kcpraw]) and the properties of
    its address validator, its two process-wide caches and its six
    establishment entry points.

    The package is glue code around four collaborators that live outside the
    repository: Go's [net] package, [rawcon] (the raw transport), [mulcon]
    (the multiplexer) and [kcp] (the forward-error-correction session engine).
    They are an interface here: a [Platform] fixes their types and their
    behaviour as functions over an abstract [World], and every definition and
    theorem is stated for an arbitrary [Platform].  A stub platform runs the
    code on explicit inputs.

    The model is sequential: one call runs to completion before the next one
    starts.  [mssCacheLock] and [lisCacheLock] bracket every cache access and
    are always released on return, so they are not represented. *)

From stdpp Require Import base strings gmap list.
From Stdlib Require Import ZArith Ascii String.

Open Scope string_scope.
Open Scope Z_scope.

(** ** Errors *)

(** Go [error] values.  [Errorf] is what [fmt.Errorf] builds from a constant
    format, [AddrError] is [*net.AddrError], [OtherError] is any other error a
    collaborator hands back, and [Wrap cause msg] is what
    [errors.Wrap(cause, msg)] builds for a non-nil [cause]. *)
Inductive error : Type :=
| Errorf (msg : string)
| AddrError (why addr : string)
| OtherError (msg : string)
| Wrap (cause : error) (msg : string).

(** A Go result pair [(v, err)] under the usual convention that exactly one
    component is non-nil: [Ok v] is [(v, nil)], [Err e] is [(nil, e)]. *)
Inductive result (A : Type) : Type :=
| Ok (v : A)
| Err (e : error).
Arguments Ok {A} v.
Arguments Err {A} e.

Definition result_map {A B : Type} (f : A → B) (r : result A) : result B :=
  match r with
  | Ok v => Ok (f v)
  | Err e => Err e
  end.

(** The [Error()] method. *)
Fixpoint Error (e : error) : string :=
  match e with
  | Errorf msg => msg
  | AddrError why addr =>
      if String.eqb addr "" then why else "address " +:+ addr +:+ ": " +:+ why
  | OtherError msg => msg
  | Wrap cause msg => msg +:+ ": " +:+ Error cause
  end.

(** [errors.Cause]: the innermost error below all wrappers. *)
Fixpoint Cause (e : error) : error :=
  match e with
  | Wrap cause _ => Cause cause
  | _ => e
  end.

(** ** Addresses *)

(** A [net.Addr] interface value, given by what its two methods return.  Two
    values with different [Addr_Network] and the same [Addr_String] are two
    distinct objects that print identically (a [*net.TCPAddr] and a
    [*net.UDPAddr] for the same ip:port, say). *)
Record Addr : Type := mkAddr {
  Addr_Network : string;
  Addr_String : string
}.

(** ** The transport configuration record [rawcon.Raw] *)

(** The fields that the package sets. *)
Record Raw : Type := mkRaw {
  NoHTTP : bool;
  Host : string;
  DSCP : Z;
  IgnRST : bool;
  Mixed : bool
}.

(** The zero value of [var raw rawcon.Raw]. *)
Definition Raw_zero : Raw :=
  {| NoHTTP := false; Host := ""; DSCP := 0; IgnRST := false; Mixed := false |}.

(** ** Collaborators *)

(** Everything outside the package.  [World] is whatever state the network and
    the collaborators keep; a call takes the world and gives the next one. *)
Class Platform : Type := {
  World : Type;
  BlockCrypt : Type;
  UDPAddr : Type;
  UDPConn : Type;
  RAWConn : Type;
  RAWListener : Type;
  MulConn : Type;
  MulListener : Type;
  UDPSession : Type;
  Listener : Type;
  (* methods of *rawcon.RAWConn and *rawcon.RAWListener *)
  LocalAddr : RAWConn → Addr;
  RemoteAddr : RAWConn → Addr;
  GetMSS : RAWConn → Z;
  Listener_LocalAddr : RAWListener → Addr;
  (* package net *)
  SplitHostPort : string → string * string * option error;
  ResolveUDPAddr : string → string → World → result UDPAddr * World;
  DialUDP : string → option UDPAddr → UDPAddr → World → result UDPConn * World;
  ListenUDP : string → UDPAddr → World → result UDPConn * World;
  (* methods of rawcon.Raw; the receiver is the configuration record *)
  DialRAW : Raw → string → World → result RAWConn * World;
  ListenRAW : Raw → string → World → result RAWListener * World
}.

(** An interface value ([net.Conn]) holding one of the concrete connection or
    listener objects that the package passes on to [mulcon] and [kcp]. *)
Inductive Conn `{P : Platform} : Type :=
| ConnRAW (c : RAWConn)
| ConnRAWListener (l : RAWListener)
| ConnUDP (c : UDPConn)
| ConnMul (c : MulConn)
| ConnMulListener (l : MulListener).

(** What [mulcon.Dial] does with the dial function it is given.  It cannot
    look inside a [func() (net.Conn, error)]; it can only call it.  So a run
    of [mulcon.Dial] is a tree: either it returns a result and leaves a
    world, or it has brought the world to [w], calls the dial function
    there, and goes on from what the call returned and the world the call
    left.  The dial function itself is package code and is supplied when the
    tree is run ([run_mux] below).  The tree ends when [mulcon.Dial]
    returns: what a connection in use may do with the dial function later is
    outside the calls of this package. *)
Inductive Mux `{P : Platform} (A : Type) : Type :=
| MuxReturn (r : A) (w : World)
| MuxDial (w : World) (k : result Conn → World → Mux A).
Arguments MuxReturn {P A} r w.
Arguments MuxDial {P A} w k.

(** The multiplexer and the session engine, which consume interface values.
    [mulcon_Dial n method password] is [mulcon.Dial] but for its first
    argument, the dial function. *)
Class Engines `{P : Platform} : Type := {
  mulcon_Dial : Z → string → string → World → Mux (result MulConn);
  mulcon_Listen : Conn → string → string → World → result MulListener * World;
  kcp_NewConn : string → BlockCrypt → Z → Z → Conn → World → result UDPSession * World;
  kcp_ServeConn : BlockCrypt → Z → Z → Conn → World → result Listener * World
}.

Section Kcpraw.
Context `{E : Engines}.

(** ** Package state *)

(** One record per invocation of a collaborator made by a function body of
    this package, with the arguments passed and the result received.  The log
    is ghost state: the code does not keep it.  The dials that a dial
    function makes while [mulcon.Dial] runs are part of that call and have
    no record of their own. *)
Inductive Event : Type :=
| EvResolveUDPAddr (network address : string) (r : result UDPAddr)
| EvListenUDP (network : string) (laddr : UDPAddr) (r : result UDPConn)
| EvDialRAW (cfg : Raw) (address : string) (r : result RAWConn)
| EvListenRAW (cfg : Raw) (address : string) (r : result RAWListener)
| EvMulconDial (n : Z) (method password : string) (r : result MulConn)
| EvMulconListen (conn : Conn) (method password : string)
    (r : result MulListener)
| EvNewConn (raddr : string) (block : BlockCrypt) (dataShards parityShards : Z)
    (conn : Conn) (r : result UDPSession)
| EvServeConn (block : BlockCrypt) (dataShards parityShards : Z) (conn : Conn)
    (r : result Listener).

(** The package-level variables, the world outside, and the log. *)
Record State : Type := mkState {
  world : World;
  raw : Raw;
  mssCache : gmap string Z;
  lisCache : gmap string RAWListener;
  calls : list Event
}.

Definition set_world (w : World) (st : State) : State :=
  mkState w (raw st) (mssCache st) (lisCache st) (calls st).
Definition set_raw (r : Raw) (st : State) : State :=
  mkState (world st) r (mssCache st) (lisCache st) (calls st).
Definition set_mssCache (m : gmap string Z) (st : State) : State :=
  mkState (world st) (raw st) m (lisCache st) (calls st).
Definition set_lisCache (m : gmap string RAWListener) (st : State) : State :=
  mkState (world st) (raw st) (mssCache st) m (calls st).
Definition log_call (ev : Event) (st : State) : State :=
  mkState (world st) (raw st) (mssCache st) (lisCache st)
          (calls st ++ [ev])%list.

(** [func init()]: both maps are made empty; [raw] has its zero value. *)
Definition init (w : World) : State :=
  mkState w Raw_zero ∅ ∅ [].

(** Computations of the package: state passing. *)
Definition M (A : Type) : Type := State → A * State.

#[export] Instance M_ret : MRet M := λ A a st, (a, st).
#[export] Instance M_bind : MBind M :=
  λ A B f m st, let '(a, st') := m st in f a st'.

(** Read the package variable [raw]. *)
Definition get_raw : M Raw := λ st, (raw st, st).

(** Invoke a collaborator on the current world and log the call. *)
Definition invoke {A : Type} (f : World → A * World) (ev : A → Event) : M A :=
  λ st, let '(r, w) := f (world st) in (r, log_call (ev r) (set_world w st)).

(** Call a collaborator on the current world without a log record. *)
Definition perform {A : Type} (f : World → A * World) : M A :=
  λ st, let '(r, w) := f (world st) in (r, set_world w st).

(** A [func() (net.Conn, error)] closure of this package.  It is package
    code: each time it is called it runs in the package state of that
    moment. *)
Definition Dialer : Type := M (result Conn).

(** Run [mulcon.Dial] with a dial function: the multiplexer moves the world,
    and each call it makes of the dial function runs the closure in the
    package state as it is then. *)
Fixpoint run_mux {A : Type} (dialer : Dialer) (m : Mux A) (st : State)
    : A * State :=
  match m with
  | MuxReturn r w => (r, set_world w st)
  | MuxDial w k =>
      let '(c, st') := dialer (set_world w st) in
      run_mux dialer (k c (world st')) st'
  end.

(** Invoke [mulcon.Dial] with a dial function and log the call. *)
Definition invoke_mux {A : Type} (dialer : Dialer) (f : World → Mux A)
    (ev : A → Event) : M A :=
  λ st, let '(r, st') := run_mux dialer (f (world st)) st in
        (r, log_call (ev r) st').

(** [mulcon.Dial] run against a dial function of the world alone, and the
    two dial functions of the package seen that way: one UDP dial, and one
    raw dial under a given configuration, each returned as a [net.Conn]. *)
Fixpoint mux_world {A : Type} (dial : World → result Conn * World) (m : Mux A)
    : A * World :=
  match m with
  | MuxReturn r w => (r, w)
  | MuxDial w k => let '(c, w') := dial w in mux_world dial (k c w')
  end.

Definition dial_udp_conn (udpaddr : UDPAddr) : World → result Conn * World :=
  λ w, let '(rawconn, w') := DialUDP "udp4" None udpaddr w in
       (result_map ConnUDP rawconn, w').

Definition dial_raw_conn (cfg : Raw) (raddr : string)
    : World → result Conn * World :=
  λ w, let '(rawconn, w') := DialRAW cfg raddr w in
       (result_map ConnRAW rawconn, w').

(** ** The caches *)

(** The Address Key [laddr.String() + raddr.String()]. *)
Definition AddrKey (laddr raddr : Addr) : string :=
  Addr_String laddr +:+ Addr_String raddr.

Definition GetMSSByAddr (laddr raddr : Addr) : M Z :=
  λ st,
    let s := Addr_String laddr +:+ Addr_String raddr in
    match mssCache st !! s with
    | Some mss => (mss, st)
    | None => (0, st)
    end.

Definition putMSSByAddr (laddr raddr : Addr) (mss : Z) : M unit :=
  λ st,
    let s := Addr_String laddr +:+ Addr_String raddr in
    (tt, set_mssCache (<[s := mss]> (mssCache st)) st).

(** [nil] is [None]. *)
Definition GetListenerByAddr (laddr : Addr) : M (option RAWListener) :=
  λ st,
    match lisCache st !! Addr_String laddr with
    | Some lis => (Some lis, st)
    | None => (None, st)
    end.

Definition putListenerByAddr (laddr : Addr) (lis : RAWListener) : M unit :=
  λ st, (tt, set_lisCache (<[Addr_String laddr := lis]> (lisCache st)) st).

(** ** The address validator *)

(** The error returned; [nil] is [None]. *)
Definition checkAddr (addr : string) : option error :=
  let '(host, _, err) := SplitHostPort addr in
  match err with
  | Some _ => err
  | None =>
      if Nat.eqb (String.length host) 0 then
        Some (Errorf "You must set the addr to ip:port")
      else if String.eqb host "0.0.0.0" then
        Some (Errorf "You can't set host to 0.0.0.0")
      else err
  end.

(** ** The establishment entry points *)

Definition mulconMethod : string := "chacha20-ietf".

(** The closure [dialer] of [DialMulWithOptions_udp]; it captures
    [udpaddr]. *)
Definition udp_dialer (udpaddr : UDPAddr) : Dialer :=
  rawconn ← perform (DialUDP "udp4" None udpaddr);
  mret (result_map ConnUDP rawconn).

(** The closure [dialer] of [DialMulWithOptions]; it captures [raddr] and
    calls [DialRAW] on the package variable [raw], which it reads each time
    it is called. *)
Definition raw_dialer (raddr : string) : Dialer :=
  cfg ← get_raw;
  rawconn ← perform (DialRAW cfg raddr);
  mret (result_map ConnRAW rawconn).

Definition DialWithOptions (raddr : string) (block : BlockCrypt)
    (dataShards parityShards : Z) : M (result UDPSession) :=
  match checkAddr raddr with
  | Some err => mret (Err (Wrap err "checkAddr"))
  | None =>
      cfg ← get_raw;
      r ← invoke (DialRAW cfg raddr) (EvDialRAW cfg raddr);
      match r with
      | Err err => mret (Err (Wrap err "net.DialRAW"))
      | Ok conn =>
          putMSSByAddr (LocalAddr conn) (RemoteAddr conn) (GetMSS conn);;
          invoke (kcp_NewConn raddr block dataShards parityShards (ConnRAW conn))
                 (EvNewConn raddr block dataShards parityShards (ConnRAW conn))
      end
  end.

Definition DialMulWithOptions_udp (raddr : string) (block : BlockCrypt)
    (dataShards parityShards : Z) : M (result UDPSession) :=
  r ← invoke (ResolveUDPAddr "udp4" raddr) (EvResolveUDPAddr "udp4" raddr);
  match r with
  | Err err => mret (Err err)
  | Ok udpaddr =>
      let dialer := udp_dialer udpaddr in
      r ← invoke_mux dialer (mulcon_Dial 10 mulconMethod "123")
                     (EvMulconDial 10 mulconMethod "123");
      match r with
      | Err err => mret (Err (Wrap err "DialMulWithOptions"))
      | Ok conn =>
          invoke (kcp_NewConn raddr block dataShards parityShards (ConnMul conn))
                 (EvNewConn raddr block dataShards parityShards (ConnMul conn))
      end
  end.

Definition DialMulWithOptions (raddr : string) (block : BlockCrypt)
    (dataShards parityShards : Z) (password : string) (mulconn : Z)
    : M (result UDPSession) :=
  match checkAddr raddr with
  | Some err => mret (Err (Wrap err "checkAddr"))
  | None =>
      let dialer := raw_dialer raddr in
      r ← invoke_mux dialer (mulcon_Dial mulconn mulconMethod password)
                     (EvMulconDial mulconn mulconMethod password);
      match r with
      | Err err => mret (Err (Wrap err "DialMulWithOptions"))
      | Ok conn =>
          invoke (kcp_NewConn raddr block dataShards parityShards (ConnMul conn))
                 (EvNewConn raddr block dataShards parityShards (ConnMul conn))
      end
  end.

Definition ListenWithOptions (laddr : string) (block : BlockCrypt)
    (dataShards parityShards : Z) : M (result Listener) :=
  match checkAddr laddr with
  | Some err => mret (Err (Wrap err "checkAddr"))
  | None =>
      cfg ← get_raw;
      r ← invoke (ListenRAW cfg laddr) (EvListenRAW cfg laddr);
      match r with
      | Err err => mret (Err (Wrap err "net.ListenRAW"))
      | Ok conn =>
          putListenerByAddr (Listener_LocalAddr conn) conn;;
          invoke (kcp_ServeConn block dataShards parityShards (ConnRAWListener conn))
                 (EvServeConn block dataShards parityShards (ConnRAWListener conn))
      end
  end.

Definition ListenMulWithOptions_udp (laddr : string) (block : BlockCrypt)
    (dataShards parityShards : Z) : M (result Listener) :=
  r ← invoke (ResolveUDPAddr "udp4" laddr) (EvResolveUDPAddr "udp4" laddr);
  match r with
  | Err err => mret (Err err)
  | Ok udpaddr =>
      r ← invoke (ListenUDP "udp4" udpaddr) (EvListenUDP "udp4" udpaddr);
      match r with
      | Err err => mret (Err (Wrap err "net.ListenRAW"))
      | Ok conn =>
          r ← invoke (mulcon_Listen (ConnUDP conn) mulconMethod "123")
                     (EvMulconListen (ConnUDP conn) mulconMethod "123");
          match r with
          | Err err => mret (Err (Wrap err "ListenMulWithOptions"))
          | Ok listener =>
              invoke (kcp_ServeConn block dataShards parityShards
                        (ConnMulListener listener))
                     (EvServeConn block dataShards parityShards
                        (ConnMulListener listener))
          end
      end
  end.

Definition ListenMulWithOptions (laddr : string) (block : BlockCrypt)
    (dataShards parityShards : Z) (password : string) : M (result Listener) :=
  cfg ← get_raw;
  r ← invoke (ListenRAW cfg laddr) (EvListenRAW cfg laddr);
  match r with
  | Err err => mret (Err (Wrap err "net.ListenRAW"))
  | Ok conn =>
      r ← invoke (mulcon_Listen (ConnRAWListener conn) mulconMethod password)
                 (EvMulconListen (ConnRAWListener conn) mulconMethod password);
      match r with
      | Err err => mret (Err (Wrap err "ListenMulWithOptions"))
      | Ok listener =>
          invoke (kcp_ServeConn block dataShards parityShards
                    (ConnMulListener listener))
                 (EvServeConn block dataShards parityShards
                    (ConnMulListener listener))
      end
  end.

(** ** The configuration setters *)

Definition SetNoHTTP (v : bool) : M unit :=
  λ st, let r := raw st in
        (tt, set_raw (mkRaw v (Host r) (DSCP r) (IgnRST r) (Mixed r)) st).

Definition SetHost (v : string) : M unit :=
  λ st, let r := raw st in
        (tt, set_raw (mkRaw (NoHTTP r) v (DSCP r) (IgnRST r) (Mixed r)) st).

Definition SetDSCP (v : Z) : M unit :=
  λ st, let r := raw st in
        (tt, set_raw (mkRaw (NoHTTP r) (Host r) v (IgnRST r) (Mixed r)) st).

Definition SetIgnRST (v : bool) : M unit :=
  λ st, let r := raw st in
        (tt, set_raw (mkRaw (NoHTTP r) (Host r) (DSCP r) v (Mixed r)) st).

Definition SetMixed (v : bool) : M unit :=
  λ st, let r := raw st in
        (tt, set_raw (mkRaw (NoHTTP r) (Host r) (DSCP r) (IgnRST r) v) st).

(** ** Histories of calls *)

(** What a client of the package can do: the exported functions.  The two
    [put] functions are not exported and are reached through the plain dial
    and listen only. *)
Inductive ApiCall : Type :=
| CallDialWithOptions (raddr : string) (block : BlockCrypt)
    (dataShards parityShards : Z)
| CallDialMulWithOptions_udp (raddr : string) (block : BlockCrypt)
    (dataShards parityShards : Z)
| CallDialMulWithOptions (raddr : string) (block : BlockCrypt)
    (dataShards parityShards : Z) (password : string) (mulconn : Z)
| CallListenWithOptions (laddr : string) (block : BlockCrypt)
    (dataShards parityShards : Z)
| CallListenMulWithOptions_udp (laddr : string) (block : BlockCrypt)
    (dataShards parityShards : Z)
| CallListenMulWithOptions (laddr : string) (block : BlockCrypt)
    (dataShards parityShards : Z) (password : string)
| CallGetMSSByAddr (laddr raddr : Addr)
| CallGetListenerByAddr (laddr : Addr)
| CallSetNoHTTP (v : bool)
| CallSetHost (v : string)
| CallSetDSCP (v : Z)
| CallSetIgnRST (v : bool)
| CallSetMixed (v : bool).

(** The state after one call; the value returned goes to the client. *)
Definition exec (c : ApiCall) (st : State) : State :=
  match c with
  | CallDialWithOptions a b d p => (DialWithOptions a b d p st).2
  | CallDialMulWithOptions_udp a b d p => (DialMulWithOptions_udp a b d p st).2
  | CallDialMulWithOptions a b d p pw n => (DialMulWithOptions a b d p pw n st).2
  | CallListenWithOptions a b d p => (ListenWithOptions a b d p st).2
  | CallListenMulWithOptions_udp a b d p =>
      (ListenMulWithOptions_udp a b d p st).2
  | CallListenMulWithOptions a b d p pw => (ListenMulWithOptions a b d p pw st).2
  | CallGetMSSByAddr l r => (GetMSSByAddr l r st).2
  | CallGetListenerByAddr l => (GetListenerByAddr l st).2
  | CallSetNoHTTP v => (SetNoHTTP v st).2
  | CallSetHost v => (SetHost v st).2
  | CallSetDSCP v => (SetDSCP v st).2
  | CallSetIgnRST v => (SetIgnRST v st).2
  | CallSetMixed v => (SetMixed v st).2
  end.

(** The state after a history of calls, oldest first. *)
Definition run (h : list ApiCall) (st : State) : State :=
  foldl (λ s c, exec c s) st h.

(** The raw connection that a call obtains and records, if it is a plain dial
    that gets as far as the cache write, and likewise the raw listener of a
    plain listen. *)
Definition dial_obtained (c : ApiCall) (st : State) : option RAWConn :=
  match c with
  | CallDialWithOptions raddr _ _ _ =>
      match checkAddr raddr, (DialRAW (raw st) raddr (world st)).1 with
      | None, Ok conn => Some conn
      | _, _ => None
      end
  | _ => None
  end.

Definition listen_obtained (c : ApiCall) (st : State) : option RAWListener :=
  match c with
  | CallListenWithOptions laddr _ _ _ =>
      match checkAddr laddr, (ListenRAW (raw st) laddr (world st)).1 with
      | None, Ok lis => Some lis
      | _, _ => None
      end
  | _ => None
  end.

(** All of them along a history that starts in [st]. *)
Fixpoint dialed (h : list ApiCall) (st : State) : list RAWConn :=
  match h with
  | [] => []
  | c :: h' => (option_list (dial_obtained c st) ++ dialed h' (exec c st))%list
  end.

Fixpoint listened (h : list ApiCall) (st : State) : list RAWListener :=
  match h with
  | [] => []
  | c :: h' =>
      (option_list (listen_obtained c st) ++ listened h' (exec c st))%list
  end.

(** The collaborator calls that one call adds to the log, and the raw
    connections and raw listeners found in a stretch of the log. *)
Definition new_calls (c : ApiCall) (st : State) : list Event :=
  drop (List.length (calls st)) (calls (exec c st)).

Fixpoint raw_conns (evs : list Event) : list RAWConn :=
  match evs with
  | [] => []
  | EvDialRAW _ _ (Ok conn) :: evs' => conn :: raw_conns evs'
  | _ :: evs' => raw_conns evs'
  end.

Fixpoint raw_listeners (evs : list Event) : list RAWListener :=
  match evs with
  | [] => []
  | EvListenRAW _ _ (Ok lis) :: evs' => lis :: raw_listeners evs'
  | _ :: evs' => raw_listeners evs'
  end.

(** Neither cache differs between two states. *)
Definition caches_unchanged (st st' : State) : Prop :=
  mssCache st' = mssCache st ∧ lisCache st' = lisCache st.

(** ** Stages of an establishment *)

Inductive Stage : Type :=
| Validation
| Resolution
| Transport
| Multiplex
| SessionWrap.

(** The error of a result, if it is one. *)
Definition result_error {A : Type} (r : result A) : option error :=
  match r with
  | Ok _ => None
  | Err e => Some e
  end.

(** The stage that a wrapper message of this package names. *)
Definition label_stage (msg : string) : option Stage :=
  if String.eqb msg "checkAddr" then Some Validation
  else if String.eqb msg "net.DialRAW" then Some Transport
  else if String.eqb msg "net.ListenRAW" then Some Transport
  else if String.eqb msg "DialMulWithOptions" then Some Multiplex
  else if String.eqb msg "ListenMulWithOptions" then Some Multiplex
  else None.

(** The stage annotation that an error carries on the outside, if any. *)
Definition error_stage (e : error) : option Stage :=
  match e with
  | Wrap _ msg => label_stage msg
  | _ => None
  end.

(** ** Kinds of calls, and the caches as a replay of the history *)

(** The field of [raw] that a setter call assigns. *)
Inductive Field : Type :=
| FNoHTTP
| FHost
| FDSCP
| FIgnRST
| FMixed.

Definition setter_field (c : ApiCall) : option Field :=
  match c with
  | CallSetNoHTTP _ => Some FNoHTTP
  | CallSetHost _ => Some FHost
  | CallSetDSCP _ => Some FDSCP
  | CallSetIgnRST _ => Some FIgnRST
  | CallSetMixed _ => Some FMixed
  | _ => None
  end.

Definition is_setter (c : ApiCall) : bool :=
  match setter_field c with
  | Some _ => true
  | None => false
  end.

Definition is_lookup (c : ApiCall) : bool :=
  match c with
  | CallGetMSSByAddr _ _ | CallGetListenerByAddr _ => true
  | _ => false
  end.

(** The map assignment that [putMSSByAddr] makes for a raw connection, and
    the one that [putListenerByAddr] makes for a raw listener. *)
Definition record_mss (m : gmap string Z) (conn : RAWConn) : gmap string Z :=
  <[AddrKey (LocalAddr conn) (RemoteAddr conn) := GetMSS conn]> m.

Definition record_listener (m : gmap string RAWListener) (lis : RAWListener)
    : gmap string RAWListener :=
  <[Addr_String (Listener_LocalAddr lis) := lis]> m.

(** The outcome of the address validation that a call starts with, if it
    starts with one, and the error that a call returns, if it returns one. *)
Definition call_validation (c : ApiCall) : option error :=
  match c with
  | CallDialWithOptions a _ _ _ => checkAddr a
  | CallDialMulWithOptions a _ _ _ _ _ => checkAddr a
  | CallListenWithOptions a _ _ _ => checkAddr a
  | _ => None
  end.

Definition call_error (c : ApiCall) (st : State) : option error :=
  match c with
  | CallDialWithOptions a b d p => result_error (DialWithOptions a b d p st).1
  | CallDialMulWithOptions_udp a b d p =>
      result_error (DialMulWithOptions_udp a b d p st).1
  | CallDialMulWithOptions a b d p pw n =>
      result_error (DialMulWithOptions a b d p pw n st).1
  | CallListenWithOptions a b d p =>
      result_error (ListenWithOptions a b d p st).1
  | CallListenMulWithOptions_udp a b d p =>
      result_error (ListenMulWithOptions_udp a b d p st).1
  | CallListenMulWithOptions a b d p pw =>
      result_error (ListenMulWithOptions a b d p pw st).1
  | _ => None
  end.

End Kcpraw.

(** ** Error propagation *)

Section Propagation.
Context `{E : Engines}.

(** How an entry point labels the error of a stage: [Some msg] wraps it with
    [msg], [None] hands it back as it came. *)
Definition decorate (label : option string) (e : error) : error :=
  match label with
  | Some msg => Wrap e msg
  | None => e
  end.

Definition dial_label (s : Stage) : option string :=
  match s with
  | Validation => Some "checkAddr"
  | Transport => Some "net.DialRAW"
  | Multiplex => Some "DialMulWithOptions"
  | Resolution | SessionWrap => None
  end.

Definition listen_label (s : Stage) : option string :=
  match s with
  | Validation => Some "checkAddr"
  | Transport => Some "net.ListenRAW"
  | Multiplex => Some "ListenMulWithOptions"
  | Resolution | SessionWrap => None
  end.

(** What a caller and the world see of a computation: the value returned
    and the world left. *)
Definition observe {A : Type} (m : M A) (st : State) : A * World :=
  ((m st).1, world (m st).2).

(** One step of an establishment.  [r] is what the call of the step returned
    and the world it left.  If it failed, the establishment ends there, in
    that world, with the error of the call labelled as [label] has it for
    the stage [s]; if it succeeded, the establishment goes on with the value
    returned, from that world. *)
Definition stage_step {A B : Type} (label : Stage → option string) (s : Stage)
    (r : result A * World) (k : A → World → result B * World)
    : result B * World :=
  match r with
  | (Err e, w) => (Err (decorate (label s) e), w)
  | (Ok v, w) => k v w
  end.

(** The end of a successful establishment. *)
Definition succeed {A : Type} (v : A) (w : World) : result A * World :=
  (Ok v, w).

End Propagation.

(** ** A stub platform *)

(** [net.SplitHostPort] of the Go standard library, for the stub platform. *)
Module GoNet.

Definition colon : ascii := ":"%char.
Definition lbracket : ascii := "["%char.
Definition rbracket : ascii := "]"%char.

(** [bytealg.IndexByteString]; [None] is the result -1. *)
Fixpoint IndexByteString (s : string) (c : ascii) : option nat :=
  match s with
  | EmptyString => None
  | String a s' =>
      if Ascii.eqb a c then Some O
      else match IndexByteString s' c with
           | Some i => Some (S i)
           | None => None
           end
  end.

(** [bytealg.LastIndexByteString]. *)
Fixpoint LastIndexByteString (s : string) (c : ascii) : option nat :=
  match s with
  | EmptyString => None
  | String a s' =>
      match LastIndexByteString s' c with
      | Some i => Some (S i)
      | None => if Ascii.eqb a c then Some O else None
      end
  end.

(** The slice [s[lo:hi]] and the slice [s[lo:]]. *)
Definition slice (s : string) (lo hi : nat) : string :=
  substring lo (hi - lo)%nat s.
Definition slice_from (s : string) (lo : nat) : string :=
  substring lo (String.length s - lo)%nat s.

Definition has_byte (s : string) (c : ascii) : bool :=
  match IndexByteString s c with
  | Some _ => true
  | None => false
  end.

Definition addrErr (addr why : string) : string * string * option error :=
  ("", "", Some (AddrError why addr)).

Definition missingPort : string := "missing port in address".
Definition tooManyColons : string := "too many colons in address".

(** The checks for a stray bracket and the final split, once [host] and the
    offsets [j] and [k] are known. *)
Definition finish (hostport host : string) (i j k : nat)
    : string * string * option error :=
  if has_byte (slice_from hostport j) lbracket then
    addrErr hostport "unexpected '[' in address"
  else if has_byte (slice_from hostport k) rbracket then
    addrErr hostport "unexpected ']' in address"
  else (host, slice_from hostport (i + 1), None).

Definition SplitHostPort (hostport : string) : string * string * option error :=
  match LastIndexByteString hostport colon with
  | None => addrErr hostport missingPort
  | Some i =>
      if match String.get 0 hostport with
         | Some a => Ascii.eqb a lbracket
         | None => false
         end
      then
        match IndexByteString hostport rbracket with
        | None => addrErr hostport "missing ']' in address"
        | Some e =>
            if Nat.eqb (e + 1) (String.length hostport) then
              addrErr hostport missingPort
            else if Nat.eqb (e + 1) i then
              finish hostport (slice hostport 1 e) i 1 (e + 1)
            else if match String.get (e + 1) hostport with
                    | Some a => Ascii.eqb a colon
                    | None => false
                    end
            then addrErr hostport tooManyColons
            else addrErr hostport missingPort
        end
      else
        let host := slice hostport 0 i in
        if has_byte host colon then addrErr hostport tooManyColons
        else finish hostport host i 0 0
  end.

End GoNet.

(** A platform for running the code on explicit inputs.  The world says which
    collaborators fail and counts the raw-transport calls; a raw connection is
    its local address, its remote address and its MSS; a raw listener is a
    serial number and its bound address. *)
Module Stub.

Record StubWorld : Type := mkWorld {
  fail_resolve : bool;
  fail_transport : bool;
  fail_multiplex : bool;
  fail_session : bool;
  transport_calls : nat
}.

Definition all_fine : StubWorld := mkWorld false false false false 0.

Definition count_transport (w : StubWorld) : StubWorld :=
  mkWorld (fail_resolve w) (fail_transport w) (fail_multiplex w)
          (fail_session w) (S (transport_calls w)).

Definition outcome {A : Type} (fail : bool) (msg : string) (v : A) : result A :=
  if fail then Err (OtherError msg) else Ok v.

Definition local_end : Addr := mkAddr "tcp" "10.0.0.2:5000".

#[export] Instance platform : Platform := {|
  World := StubWorld;
  BlockCrypt := unit;
  UDPAddr := string;
  UDPConn := string;
  RAWConn := Addr * Addr * Z;
  RAWListener := nat * Addr;
  MulConn := unit;
  MulListener := unit;
  UDPSession := string;
  Listener := unit;
  LocalAddr := λ c, c.1.1;
  RemoteAddr := λ c, c.1.2;
  GetMSS := λ c, c.2;
  Listener_LocalAddr := λ l, l.2;
  SplitHostPort := GoNet.SplitHostPort;
  ResolveUDPAddr := λ _ address w,
    (outcome (fail_resolve w) "no such host" address, w);
  DialUDP := λ _ _ raddr w,
    (outcome (fail_transport w) "connection refused" raddr, w);
  ListenUDP := λ _ laddr w,
    (outcome (fail_transport w) "address already in use" laddr, w);
  DialRAW := λ _ address w,
    (outcome (fail_transport w) "connection refused"
       (local_end, mkAddr "tcp" address, 1400),
     count_transport w);
  ListenRAW := λ _ address w,
    (outcome (fail_transport w) "address already in use"
       (transport_calls w, mkAddr "tcp" address),
     count_transport w)
|}.

#[export] Instance engines : Engines := {|
  mulcon_Dial := λ _ _ _ w,
    MuxDial w (λ c w',
      match c with
      | Ok _ => MuxReturn (outcome (fail_multiplex w') "handshake failed" tt) w'
      | Err e => MuxReturn (Err e) w'
      end);
  mulcon_Listen := λ _ _ _ w,
    (outcome (fail_multiplex w) "handshake failed" tt, w);
  kcp_NewConn := λ raddr _ _ _ _ w,
    (outcome (fail_session w) "bad shard count" raddr, w);
  kcp_ServeConn := λ _ _ _ _ w,
    (outcome (fail_session w) "bad shard count" tt, w)
|}.

End Stub.

(** * Properties *)

(** ** The multiplexer and the two dial functions *)

Section MuxFacts.
Context `{E : Engines}.

(** A dial function that only calls a collaborator on the world, under the
    configuration [cfg] of the package, runs the multiplexer as the
    collaborator alone would, and changes the world only. *)
Lemma run_mux_as_world {A : Type} (dialer : Dialer)
    (dial : World → result Conn * World) (cfg : Raw) :
  (∀ s, raw s = cfg →
        dialer s = (let '(c, w) := dial (world s) in (c, set_world w s))) →
  ∀ (m : Mux A) (st : State), raw st = cfg →
    run_mux dialer m st =
    (let '(r, w) := mux_world dial m in (r, set_world w st)).
Proof.
  intros Hd m. induction m as [r w|w k IH]; intros st Hraw; simpl.
  - reflexivity.
  - rewrite Hd by done. simpl. destruct (dial w) as [c w'].
    rewrite IH by done. simpl. by destruct (mux_world dial (k c w')).
Qed.

Lemma udp_dialer_call (udpaddr : UDPAddr) (s : State) :
  udp_dialer udpaddr s =
  (let '(c, w) := dial_udp_conn udpaddr (world s) in (c, set_world w s)).
Proof.
  unfold udp_dialer, dial_udp_conn, mbind, mret, M_bind, M_ret, perform.
  by destruct (DialUDP "udp4" None udpaddr (world s)).
Qed.

(** The raw dial function dials under the configuration of the state in
    which it is called. *)
Lemma raw_dialer_call (raddr : string) (s : State) :
  raw_dialer raddr s =
  (let '(c, w) := dial_raw_conn (raw s) raddr (world s) in (c, set_world w s)).
Proof.
  unfold raw_dialer, dial_raw_conn, mbind, mret, M_bind, M_ret, perform,
    get_raw.
  by destruct (DialRAW (raw s) raddr (world s)).
Qed.

Lemma run_mux_udp {A : Type} (udpaddr : UDPAddr) (m : Mux A) (st : State) :
  run_mux (udp_dialer udpaddr) m st =
  (let '(r, w) := mux_world (dial_udp_conn udpaddr) m in (r, set_world w st)).
Proof.
  apply (run_mux_as_world _ _ (raw st)); [|done].
  intros s _. apply udp_dialer_call.
Qed.

Lemma run_mux_raw {A : Type} (raddr : string) (m : Mux A) (st : State) :
  run_mux (raw_dialer raddr) m st =
  (let '(r, w) := mux_world (dial_raw_conn (raw st) raddr) m in
   (r, set_world w st)).
Proof.
  apply (run_mux_as_world _ _ (raw st)); [|done].
  intros s Hraw. rewrite <- Hraw. apply raw_dialer_call.
Qed.

End MuxFacts.

(** Unfold the state-passing plumbing of an entry point. *)
Ltac unfold_M :=
  unfold DialWithOptions, DialMulWithOptions_udp, DialMulWithOptions,
    ListenWithOptions, ListenMulWithOptions_udp, ListenMulWithOptions,
    GetMSSByAddr, putMSSByAddr, GetListenerByAddr, putListenerByAddr,
    SetNoHTTP, SetHost, SetDSCP, SetIgnRST, SetMixed,
    mbind, mret, M_bind, M_ret, invoke, invoke_mux, get_raw,
    log_call, set_world, set_mssCache, set_lisCache, set_raw.

(** Split on the outcome of every collaborator call in the goal. *)
Ltac split_calls :=
  repeat (simpl; match goal with
    | |- context [match checkAddr ?a with _ => _ end] =>
        destruct (checkAddr a) eqn:?
    | |- context [run_mux (udp_dialer ?u) ?m ?s] =>
        rewrite (run_mux_udp u m s)
    | |- context [run_mux (raw_dialer ?a) ?m ?s] =>
        rewrite (run_mux_raw a m s)
    | |- context [let '(_, _) := ?f in _] =>
        lazymatch f with
        | (let '(_, _) := _ in _) => fail
        | _ => let r := fresh "r" in let w := fresh "w" in
               destruct f as [[r|r] w] eqn:?
        end
    | |- context [match ?m !! ?k with _ => _ end] =>
        destruct (m !! k) eqn:?
    end); simpl.

Section Properties.
Context `{E : Engines}.

(** ** The validator *)

Lemma length_zero_empty (s : string) :
  Nat.eqb (String.length s) 0 = true ↔ s = "".
Proof.
  destruct s; simpl; split; intros H; try done.
Qed.

(** C1.  [checkAddr] is a function of the address string alone (it neither
    reads nor changes the package state), and it returns an error exactly
    when [net.SplitHostPort] cannot split the string, or the host it gives is
    empty, or the host is "0.0.0.0": the splitter's own error in the first
    case and a fixed message in the other two.  For every other string it
    returns nil. *)
Theorem checkAddr_fails_exactly (addr : string) :
  let '(host, _, err) := SplitHostPort addr in
  (is_Some (checkAddr addr) ↔ is_Some err ∨ host = "" ∨ host = "0.0.0.0") ∧
  (checkAddr addr = None ↔ err = None ∧ host ≠ "" ∧ host ≠ "0.0.0.0") ∧
  checkAddr addr =
    match err with
    | Some e => Some e
    | None =>
        if decide (host = "") then
          Some (Errorf "You must set the addr to ip:port")
        else if decide (host = "0.0.0.0") then
          Some (Errorf "You can't set host to 0.0.0.0")
        else None
    end.
Proof.
  unfold checkAddr.
  destruct (SplitHostPort addr) as [[host port] err].
  destruct err as [e|].
  - split_and!; [|split; [done | intros [? _]; done]|done].
    split; eauto.
  - destruct (Nat.eqb (String.length host) 0) eqn:Hlen.
    + apply length_zero_empty in Hlen as ->. rewrite decide_True by done.
      split_and!; [|split; [done | intros (? & ? & ?); done]|done].
      split; eauto.
    + assert (host ≠ "") as Hne.
      { intros ->. simpl in Hlen. done. }
      rewrite (decide_False (P := host = "")) by done.
      destruct (String.eqb host "0.0.0.0") eqn:Hz.
      * apply String.eqb_eq in Hz as ->. rewrite decide_True by done.
        split_and!; [|split; [done | intros (? & ? & ?); done]|done].
        split; eauto.
      * apply String.eqb_neq in Hz. rewrite decide_False by done.
        split_and!; [|done|done].
        split; [intros [? ?]; done|].
        intros [[? ?]|[?|?]]; done.
Qed.

(** ** The caches, one write at a time *)

Lemma GetMSSByAddr_state (laddr raddr : Addr) (st : State) :
  (GetMSSByAddr laddr raddr st).2 = st.
Proof. unfold GetMSSByAddr. by destruct (mssCache st !! _). Qed.

Lemma GetListenerByAddr_state (laddr : Addr) (st : State) :
  (GetListenerByAddr laddr st).2 = st.
Proof. unfold GetListenerByAddr. by destruct (lisCache st !! _). Qed.

Lemma GetMSSByAddr_lookup (laddr raddr : Addr) (st : State) :
  (GetMSSByAddr laddr raddr st).1 =
  default 0 (mssCache st !! AddrKey laddr raddr).
Proof.
  unfold GetMSSByAddr, AddrKey. by destruct (mssCache st !! _).
Qed.

Lemma GetListenerByAddr_lookup (laddr : Addr) (st : State) :
  (GetListenerByAddr laddr st).1 = lisCache st !! Addr_String laddr.
Proof. unfold GetListenerByAddr. by destruct (lisCache st !! _). Qed.

Lemma put_then_get_shared_key (L1 R1 L2 R2 : Addr) (m : Z) (st : State) :
  AddrKey L1 R1 = AddrKey L2 R2 →
  (GetMSSByAddr L2 R2 (putMSSByAddr L1 R1 m st).2).1 = m.
Proof.
  intros Hk. rewrite GetMSSByAddr_lookup. unfold putMSSByAddr. simpl.
  fold (AddrKey L1 R1). rewrite Hk. by rewrite lookup_insert_eq.
Qed.

(** C8.  Writing the same entry twice in a row leaves the package in the
    state that one write gives, and the lookup then returns the value
    written; this holds for the MSS cache and for the listener cache. *)
Theorem cache_writes_idempotent (st : State) (L R A : Addr) (mss : Z)
    (lis : RAWListener) :
  let once := (putMSSByAddr L R mss st).2 in
  let twice := (putMSSByAddr L R mss once).2 in
  let once' := (putListenerByAddr A lis st).2 in
  let twice' := (putListenerByAddr A lis once').2 in
  twice = once ∧ (GetMSSByAddr L R twice).1 = mss ∧
  twice' = once' ∧ (GetListenerByAddr A twice').1 = Some lis.
Proof.
  simpl. split_and!.
  - unfold putMSSByAddr, set_mssCache. simpl. by rewrite insert_insert_eq.
  - rewrite GetMSSByAddr_lookup. unfold putMSSByAddr, AddrKey. simpl.
    by rewrite lookup_insert_eq.
  - unfold putListenerByAddr, set_lisCache. simpl. by rewrite insert_insert_eq.
  - rewrite GetListenerByAddr_lookup. unfold putListenerByAddr. simpl.
    by rewrite lookup_insert_eq.
Qed.

(** C9.  Addresses count by their printed form: a write under [(L1, R1)] is
    read back under any [(L2, R2)] whose two addresses print as those of
    [(L1, R1)] do, whether or not they are the same objects. *)
Theorem same_print_same_entry (st : State) (L1 L2 R1 R2 : Addr) (m : Z) :
  Addr_String L1 = Addr_String L2 →
  Addr_String R1 = Addr_String R2 →
  (GetMSSByAddr L2 R2 (putMSSByAddr L1 R1 m st).2).1 = m.
Proof.
  intros HL HR. apply put_then_get_shared_key. unfold AddrKey.
  by rewrite HL, HR.
Qed.

(** C10.  The key is not injective on address pairs.  There are two pairs
    whose local addresses print differently and whose keys are one string,
    and for any such pairs a write under one of them is what a lookup under
    the other returns, so that the later of two writes decides both
    lookups. *)
Theorem key_not_injective :
  (∃ L1 R1 L2 R2 : Addr,
     (L1, R1) ≠ (L2, R2) ∧ Addr_String L1 ≠ Addr_String L2 ∧
     AddrKey L1 R1 = AddrKey L2 R2) ∧
  (∀ (L1 R1 L2 R2 : Addr) (st : State) (m m' : Z),
     AddrKey L1 R1 = AddrKey L2 R2 →
     (GetMSSByAddr L2 R2 (putMSSByAddr L1 R1 m st).2).1 = m ∧
     let st' := (putMSSByAddr L2 R2 m' (putMSSByAddr L1 R1 m st).2).2 in
     (GetMSSByAddr L1 R1 st').1 = m' ∧ (GetMSSByAddr L2 R2 st').1 = m').
Proof.
  split.
  - exists (mkAddr "tcp" "10.0.0.2:5000"), (mkAddr "tcp" "110.1.2.3:443"),
           (mkAddr "tcp" "10.0.0.2:50001"), (mkAddr "tcp" "10.1.2.3:443").
    split_and!; [intros [=] | intros [=] | reflexivity].
  - intros L1 R1 L2 R2 st m m' Hk. cbv zeta. split_and!.
    + by apply put_then_get_shared_key.
    + by apply put_then_get_shared_key.
    + by apply put_then_get_shared_key.
Qed.

(** ** What one call does to the caches *)

Lemma DialMulWithOptions_frame raddr block ds ps password mulconn st :
  caches_unchanged st (DialMulWithOptions raddr block ds ps password mulconn st).2.
Proof. unfold_M. split_calls; by split. Qed.

Lemma DialMulWithOptions_udp_frame raddr block ds ps st :
  caches_unchanged st (DialMulWithOptions_udp raddr block ds ps st).2.
Proof. unfold_M. split_calls; by split. Qed.

Lemma ListenMulWithOptions_frame laddr block ds ps password st :
  caches_unchanged st (ListenMulWithOptions laddr block ds ps password st).2.
Proof. unfold_M. split_calls; by split. Qed.

Lemma ListenMulWithOptions_udp_frame laddr block ds ps st :
  caches_unchanged st (ListenMulWithOptions_udp laddr block ds ps st).2.
Proof. unfold_M. split_calls; by split. Qed.

(** The MSS cache after a call: one insertion if the call is a plain dial that
    obtained a raw connection, no change otherwise. *)
Lemma exec_mssCache (c : ApiCall) (st : State) :
  mssCache (exec c st) =
  match dial_obtained c st with
  | Some conn =>
      <[AddrKey (LocalAddr conn) (RemoteAddr conn) := GetMSS conn]> (mssCache st)
  | None => mssCache st
  end.
Proof.
  destruct c; simpl;
    try apply DialMulWithOptions_frame; try apply DialMulWithOptions_udp_frame;
    try apply ListenMulWithOptions_frame;
    try apply ListenMulWithOptions_udp_frame;
    try (by rewrite GetMSSByAddr_state);
    try (by rewrite GetListenerByAddr_state); try done.
  - unfold_M. split_calls; done.
  - unfold_M. split_calls; done.
Qed.

(** The listener cache after a call, likewise. *)
Lemma exec_lisCache (c : ApiCall) (st : State) :
  lisCache (exec c st) =
  match listen_obtained c st with
  | Some lis => <[Addr_String (Listener_LocalAddr lis) := lis]> (lisCache st)
  | None => lisCache st
  end.
Proof.
  destruct c; simpl;
    try apply DialMulWithOptions_frame; try apply DialMulWithOptions_udp_frame;
    try apply ListenMulWithOptions_frame;
    try apply ListenMulWithOptions_udp_frame;
    try (by rewrite GetMSSByAddr_state);
    try (by rewrite GetListenerByAddr_state); try done.
  - unfold_M. split_calls; done.
  - unfold_M. split_calls; done.
Qed.

(** C6.  The four multiplexed entry points leave both caches as they found
    them, whatever their outcome; and over all exported calls, the MSS cache
    changes in a plain dial only and the listener cache in a plain listen
    only. *)
Theorem multiplexed_paths_leave_caches (st : State) (addr : string)
    (block : BlockCrypt) (dataShards parityShards : Z) (password : string)
    (mulconn : Z) (c : ApiCall) :
  caches_unchanged st
    (DialMulWithOptions addr block dataShards parityShards password mulconn st).2 ∧
  caches_unchanged st
    (DialMulWithOptions_udp addr block dataShards parityShards st).2 ∧
  caches_unchanged st
    (ListenMulWithOptions addr block dataShards parityShards password st).2 ∧
  caches_unchanged st
    (ListenMulWithOptions_udp addr block dataShards parityShards st).2 ∧
  match c with
  | CallDialWithOptions _ _ _ _ => lisCache (exec c st) = lisCache st
  | CallListenWithOptions _ _ _ _ => mssCache (exec c st) = mssCache st
  | _ => caches_unchanged st (exec c st)
  end.
Proof.
  split_and!.
  - apply DialMulWithOptions_frame.
  - apply DialMulWithOptions_udp_frame.
  - apply ListenMulWithOptions_frame.
  - apply ListenMulWithOptions_udp_frame.
  - pose proof (exec_mssCache c st) as Hm.
    pose proof (exec_lisCache c st) as Hl.
    destruct c; simpl in Hm, Hl; try done.
Qed.

(** [dial_obtained] and [listen_obtained] agree with the log: the raw
    connections a call obtained from [DialRAW] are those it recorded, and so
    are the raw listeners a plain listen obtained from [ListenRAW]. *)
Lemma dial_obtained_logged (c : ApiCall) (st : State) :
  raw_conns (new_calls c st) = option_list (dial_obtained c st).
Proof.
  unfold new_calls.
  destruct c; simpl; unfold_M; split_calls;
    rewrite <- ?app_assoc, ?drop_app_length, ?drop_all; done.
Qed.

Lemma listen_obtained_logged (laddr : string) (block : BlockCrypt)
    (ds ps : Z) (st : State) :
  let c := CallListenWithOptions laddr block ds ps in
  raw_listeners (new_calls c st) = option_list (listen_obtained c st).
Proof.
  unfold new_calls. simpl. unfold_M. split_calls;
    rewrite <- ?app_assoc, ?drop_app_length, ?drop_all; done.
Qed.

(** ** The error of a failure is kept *)

Lemma decorate_Cause (label : option string) (e : error) :
  Cause (decorate label e) = Cause e.
Proof. by destruct label. Qed.

Lemma Error_Wrap (e : error) (msg : string) :
  Error (Wrap e msg) = msg +:+ ": " +:+ Error e.
Proof. reflexivity. Qed.

(** ** Histories *)

Lemma run_cons (c : ApiCall) (h : list ApiCall) (st : State) :
  run (c :: h) st = run h (exec c st).
Proof. reflexivity. Qed.

(** An entry of the MSS cache is as it was before a history in which no plain
    dial obtained a connection with that key. *)
Lemma mssCache_run (h : list ApiCall) (st : State) (k : string) :
  Forall (λ conn, AddrKey (LocalAddr conn) (RemoteAddr conn) ≠ k) (dialed h st) →
  mssCache (run h st) !! k = mssCache st !! k.
Proof.
  revert st. induction h as [|c h IH]; intros st HF; [done|].
  rewrite run_cons. simpl in HF. apply Forall_app in HF as [Hc Hh].
  rewrite IH by done. rewrite exec_mssCache.
  destruct (dial_obtained c st) as [conn|]; [|done].
  simpl in Hc. apply Forall_cons in Hc as [Hc _].
  by rewrite lookup_insert_ne.
Qed.

Lemma lisCache_run (h : list ApiCall) (st : State) (k : string) :
  Forall (λ lis, Addr_String (Listener_LocalAddr lis) ≠ k) (listened h st) →
  lisCache (run h st) !! k = lisCache st !! k.
Proof.
  revert st. induction h as [|c h IH]; intros st HF; [done|].
  rewrite run_cons. simpl in HF. apply Forall_app in HF as [Hc Hh].
  rewrite IH by done. rewrite exec_lisCache.
  destruct (listen_obtained c st) as [lis|]; [|done].
  simpl in Hc. apply Forall_cons in Hc as [Hc _].
  by rewrite lookup_insert_ne.
Qed.

(** A plain dial that obtains a raw connection leaves its MSS under its key,
    whether or not the session is then created. *)
Lemma DialWithOptions_records (st : State) (raddr : string)
    (block : BlockCrypt) (ds ps : Z) (conn : RAWConn) (w : World) :
  checkAddr raddr = None →
  DialRAW (raw st) raddr (world st) = (Ok conn, w) →
  mssCache (DialWithOptions raddr block ds ps st).2
    !! AddrKey (LocalAddr conn) (RemoteAddr conn) = Some (GetMSS conn).
Proof.
  intros Hchk Hdial.
  change (DialWithOptions raddr block ds ps st).2
    with (exec (CallDialWithOptions raddr block ds ps) st).
  rewrite exec_mssCache. simpl. rewrite Hchk, Hdial. simpl.
  by rewrite lookup_insert_eq.
Qed.

Lemma ListenWithOptions_records (st : State) (laddr : string)
    (block : BlockCrypt) (ds ps : Z) (lis : RAWListener) (w : World) :
  checkAddr laddr = None →
  ListenRAW (raw st) laddr (world st) = (Ok lis, w) →
  lisCache (ListenWithOptions laddr block ds ps st).2
    !! Addr_String (Listener_LocalAddr lis) = Some lis.
Proof.
  intros Hchk Hlis.
  change (ListenWithOptions laddr block ds ps st).2
    with (exec (CallListenWithOptions laddr block ds ps) st).
  rewrite exec_lisCache. simpl. rewrite Hchk, Hlis. simpl.
  by rewrite lookup_insert_eq.
Qed.

(** An entry point that returns a session or a listener passed validation. *)
Lemma DialWithOptions_Ok_valid st raddr block ds ps sess :
  (DialWithOptions raddr block ds ps st).1 = Ok sess → checkAddr raddr = None.
Proof. unfold DialWithOptions. by destruct (checkAddr raddr). Qed.

Lemma ListenWithOptions_Ok_valid st laddr block ds ps l :
  (ListenWithOptions laddr block ds ps st).1 = Ok l → checkAddr laddr = None.
Proof. unfold ListenWithOptions. by destruct (checkAddr laddr). Qed.

(** C2, as amended.  After a successful plain dial whose raw connection has
    local address L, remote address R and MSS m, the lookup for (L, R)
    returns m, and it still does after any further calls among which no plain
    dial obtained a connection with the same key.  From the initial state,
    the lookup for (L, R) returns zero after every history in which no plain
    dial obtained a connection whose key, the two printed addresses joined,
    is the key of (L, R). *)
Theorem plain_dial_records_mss :
  (∀ (st st' : State) raddr block ds ps (conn : RAWConn) (w : World)
     (sess : UDPSession) (h : list ApiCall),
     DialRAW (raw st) raddr (world st) = (Ok conn, w) →
     DialWithOptions raddr block ds ps st = (Ok sess, st') →
     Forall (λ c, AddrKey (LocalAddr c) (RemoteAddr c) ≠
                  AddrKey (LocalAddr conn) (RemoteAddr conn)) (dialed h st') →
     (GetMSSByAddr (LocalAddr conn) (RemoteAddr conn) (run h st')).1 =
     GetMSS conn) ∧
  (∀ (w0 : World) (h : list ApiCall) (L R : Addr),
     Forall (λ c, AddrKey (LocalAddr c) (RemoteAddr c) ≠ AddrKey L R)
            (dialed h (init w0)) →
     (GetMSSByAddr L R (run h (init w0))).1 = 0).
Proof.
  split.
  - intros st st' raddr block ds ps conn w sess h Hdial Hcall Hh.
    rewrite GetMSSByAddr_lookup, mssCache_run by done.
    assert (checkAddr raddr = None) as Hchk.
    { eapply (DialWithOptions_Ok_valid st). by rewrite Hcall. }
    pose proof (DialWithOptions_records st raddr block ds ps conn w Hchk Hdial)
      as Hrec.
    rewrite Hcall in Hrec. simpl in Hrec. by rewrite Hrec.
  - intros w0 h L R Hh.
    rewrite GetMSSByAddr_lookup, mssCache_run by done.
    simpl. by rewrite lookup_empty.
Qed.

(** C5.  After a successful plain listen whose raw listener is bound at
    address A, the lookup for A returns that listener, and it still does
    after any further calls among which no plain listen obtained a listener
    bound at an address printing as A does.  From the initial state, the
    lookup for an address returns nil after every history in which no plain
    listen obtained a listener bound at an address printing as it does. *)
Theorem plain_listen_records_listener :
  (∀ (st st' : State) laddr block ds ps (lis : RAWListener) (w : World)
     (l : Listener) (h : list ApiCall),
     ListenRAW (raw st) laddr (world st) = (Ok lis, w) →
     ListenWithOptions laddr block ds ps st = (Ok l, st') →
     Forall (λ lis', Addr_String (Listener_LocalAddr lis') ≠
                     Addr_String (Listener_LocalAddr lis)) (listened h st') →
     (GetListenerByAddr (Listener_LocalAddr lis) (run h st')).1 = Some lis) ∧
  (∀ (w0 : World) (h : list ApiCall) (A : Addr),
     Forall (λ lis, Addr_String (Listener_LocalAddr lis) ≠ Addr_String A)
            (listened h (init w0)) →
     (GetListenerByAddr A (run h (init w0))).1 = None).
Proof.
  split.
  - intros st st' laddr block ds ps lis w l h Hlis Hcall Hh.
    rewrite GetListenerByAddr_lookup, lisCache_run by done.
    assert (checkAddr laddr = None) as Hchk.
    { eapply (ListenWithOptions_Ok_valid st). by rewrite Hcall. }
    pose proof (ListenWithOptions_records st laddr block ds ps lis w Hchk Hlis)
      as Hrec.
    by rewrite Hcall in Hrec.
  - intros w0 h A Hh.
    rewrite GetListenerByAddr_lookup, lisCache_run by done.
    simpl. by rewrite lookup_empty.
Qed.

(** ** Failures of the plain dial *)

(** C3.  When the remote address fails validation, the plain dial returns
    the validation error wrapped as "checkAddr" and leaves the whole state as
    it was: no collaborator was called, the world and both caches are
    untouched.  When validation passes and the raw dial fails, it returns
    that error wrapped as "net.DialRAW" and the MSS cache is as it was. *)
Theorem failed_dial_records_nothing (st : State) (raddr : string)
    (block : BlockCrypt) (dataShards parityShards : Z) :
  (∀ e, checkAddr raddr = Some e →
     DialWithOptions raddr block dataShards parityShards st =
     (Err (Wrap e "checkAddr"), st)) ∧
  (∀ e w, checkAddr raddr = None →
     DialRAW (raw st) raddr (world st) = (Err e, w) →
     let out := DialWithOptions raddr block dataShards parityShards st in
     out.1 = Err (Wrap e "net.DialRAW") ∧ mssCache out.2 = mssCache st ∧
     lisCache out.2 = lisCache st).
Proof.
  split.
  - intros e Hchk. unfold DialWithOptions. by rewrite Hchk.
  - intros e w Hchk Hdial. unfold_M. rewrite Hchk. simpl. by rewrite Hdial.
Qed.

(** The session wrap is another matter: the entry written before it stays. *)
Lemma session_failure_keeps_entry (st : State) (raddr : string)
    (block : BlockCrypt) (ds ps : Z) (conn : RAWConn) (w w' : World)
    (e : error) :
  checkAddr raddr = None →
  DialRAW (raw st) raddr (world st) = (Ok conn, w) →
  kcp_NewConn raddr block ds ps (ConnRAW conn) w = (Err e, w') →
  let out := DialWithOptions raddr block ds ps st in
  out.1 = Err e ∧
  (GetMSSByAddr (LocalAddr conn) (RemoteAddr conn) out.2).1 = GetMSS conn.
Proof.
  intros Hchk Hdial Hnew. cbv zeta. split.
  - unfold_M. rewrite Hchk. simpl. rewrite Hdial. simpl. by rewrite Hnew.
  - rewrite GetMSSByAddr_lookup.
    by rewrite (DialWithOptions_records st raddr block ds ps conn w).
Qed.

(** ** The plain-UDP variants *)

(** C7.  What [DialMulWithOptions_udp] returns and the world it leaves, for
    every address, also one that [checkAddr] rejects: nothing is validated;
    the address is resolved with [net.ResolveUDPAddr] on network "udp4"; if
    that fails its error is returned as it came; otherwise [mulcon.Dial] is
    run with connection count 10, method "chacha20-ietf" and secret "123",
    and each call it makes of the dial function is a UDP dial to the
    resolved address; its connection goes to [kcp.NewConn].
    [ListenMulWithOptions_udp] resolves likewise, opens a UDP listener, and
    gives it to [mulcon.Listen] with method "chacha20-ietf" and secret
    "123". *)
Theorem udp_variants_fixed_parameters (st : State) (addr : string)
    (block : BlockCrypt) (dataShards parityShards : Z) :
  observe (DialMulWithOptions_udp addr block dataShards parityShards) st =
    (let '(r, w) := ResolveUDPAddr "udp4" addr (world st) in
     match r with
     | Err e => (Err e, w)
     | Ok udpaddr =>
         let '(rm, w') :=
           mux_world
             (λ w0, let '(c, w1) := DialUDP "udp4" None udpaddr w0 in
                    (result_map ConnUDP c, w1))
             (mulcon_Dial 10 "chacha20-ietf" "123" w) in
         match rm with
         | Err e => (Err (Wrap e "DialMulWithOptions"), w')
         | Ok conn =>
             kcp_NewConn addr block dataShards parityShards (ConnMul conn) w'
         end
     end) ∧
  observe (ListenMulWithOptions_udp addr block dataShards parityShards) st =
    (let '(r, w) := ResolveUDPAddr "udp4" addr (world st) in
     match r with
     | Err e => (Err e, w)
     | Ok udpaddr =>
         let '(rl, w') := ListenUDP "udp4" udpaddr w in
         match rl with
         | Err e => (Err (Wrap e "net.ListenRAW"), w')
         | Ok conn =>
             let '(rm, w'') :=
               mulcon_Listen (ConnUDP conn) "chacha20-ietf" "123" w' in
             match rm with
             | Err e => (Err (Wrap e "ListenMulWithOptions"), w'')
             | Ok listener =>
                 kcp_ServeConn block dataShards parityShards
                   (ConnMulListener listener) w''
             end
         end
     end).
Proof.
  unfold observe. split.
  - unfold_M. simpl.
    destruct (ResolveUDPAddr "udp4" addr (world st)) as [[udpaddr|e] w];
      simpl; [|reflexivity].
    rewrite run_mux_udp. unfold dial_udp_conn, mulconMethod.
    destruct (mux_world _ _) as [[conn|e] w']; simpl; [|reflexivity].
    by destruct (kcp_NewConn _ _ _ _ _ _).
  - unfold_M. unfold mulconMethod. split_calls; reflexivity.
Qed.

(** ** Error propagation *)

(** C4, as amended.  What each of the six entry points returns and the
    world it leaves, step by step.  A failed validation ends the call at
    once, in the world as it was.  Every later step is one call of a
    collaborator, made in the world the previous step left; if it fails,
    the call ends there, in the world that step left, with the error of
    that step; if it succeeds, the next step follows.  The error is wrapped
    with the message for its stage when the stage is validation, transport
    or multiplex, and returned as it came when the stage is resolution or
    session wrap.  The multiplex step of a dial is the whole run of
    [mulcon.Dial], the dials of its dial function included: whatever error
    that run returns is a multiplex error. *)
Theorem failures_propagate (st : State) (addr : string) (block : BlockCrypt)
    (dataShards parityShards : Z) (password : string) (mulconn : Z) :
  observe (DialWithOptions addr block dataShards parityShards) st =
    match checkAddr addr with
    | Some e => (Err (decorate (dial_label Validation) e), world st)
    | None =>
        stage_step dial_label Transport
          (DialRAW (raw st) addr (world st)) (λ conn w,
        stage_step dial_label SessionWrap
          (kcp_NewConn addr block dataShards parityShards (ConnRAW conn) w)
          succeed)
    end ∧
  observe (DialMulWithOptions_udp addr block dataShards parityShards) st =
    stage_step dial_label Resolution
      (ResolveUDPAddr "udp4" addr (world st)) (λ udpaddr w,
    stage_step dial_label Multiplex
      (observe (run_mux (udp_dialer udpaddr)
                  (mulcon_Dial 10 mulconMethod "123" w)) st) (λ conn w',
    stage_step dial_label SessionWrap
      (kcp_NewConn addr block dataShards parityShards (ConnMul conn) w')
      succeed)) ∧
  observe (DialMulWithOptions addr block dataShards parityShards password
             mulconn) st =
    match checkAddr addr with
    | Some e => (Err (decorate (dial_label Validation) e), world st)
    | None =>
        stage_step dial_label Multiplex
          (observe (run_mux (raw_dialer addr)
                      (mulcon_Dial mulconn mulconMethod password (world st)))
             st) (λ conn w,
        stage_step dial_label SessionWrap
          (kcp_NewConn addr block dataShards parityShards (ConnMul conn) w)
          succeed)
    end ∧
  observe (ListenWithOptions addr block dataShards parityShards) st =
    match checkAddr addr with
    | Some e => (Err (decorate (listen_label Validation) e), world st)
    | None =>
        stage_step listen_label Transport
          (ListenRAW (raw st) addr (world st)) (λ lis w,
        stage_step listen_label SessionWrap
          (kcp_ServeConn block dataShards parityShards (ConnRAWListener lis) w)
          succeed)
    end ∧
  observe (ListenMulWithOptions_udp addr block dataShards parityShards) st =
    stage_step listen_label Resolution
      (ResolveUDPAddr "udp4" addr (world st)) (λ udpaddr w,
    stage_step listen_label Transport
      (ListenUDP "udp4" udpaddr w) (λ conn w',
    stage_step listen_label Multiplex
      (mulcon_Listen (ConnUDP conn) mulconMethod "123" w') (λ listener w'',
    stage_step listen_label SessionWrap
      (kcp_ServeConn block dataShards parityShards (ConnMulListener listener)
         w'')
      succeed))) ∧
  observe (ListenMulWithOptions addr block dataShards parityShards password)
    st =
    stage_step listen_label Transport
      (ListenRAW (raw st) addr (world st)) (λ lis w,
    stage_step listen_label Multiplex
      (mulcon_Listen (ConnRAWListener lis) mulconMethod password w)
      (λ listener w',
    stage_step listen_label SessionWrap
      (kcp_ServeConn block dataShards parityShards (ConnMulListener listener)
         w')
      succeed)).
Proof.
  unfold observe, stage_step, succeed.
  split_and!; unfold_M; split_calls; reflexivity.
Qed.

End Properties.

(** * Further properties of the package *)

Section Further.
Context `{E : Engines}.

(** ** The caches as maps *)

(** X4.  MSS entries under different keys do not disturb each other: a
    write under one key leaves the lookup under another as it was, and two
    such writes give the same state in either order.  Under one key the
    later write replaces the earlier one. *)
Theorem mss_entries_independent (st : State) (L1 R1 L2 R2 : Addr) (m1 m2 : Z) :
  (AddrKey L1 R1 ≠ AddrKey L2 R2 →
     (GetMSSByAddr L2 R2 (putMSSByAddr L1 R1 m1 st).2).1 =
       (GetMSSByAddr L2 R2 st).1 ∧
     (putMSSByAddr L2 R2 m2 (putMSSByAddr L1 R1 m1 st).2).2 =
       (putMSSByAddr L1 R1 m1 (putMSSByAddr L2 R2 m2 st).2).2) ∧
  (AddrKey L1 R1 = AddrKey L2 R2 →
     (putMSSByAddr L2 R2 m2 (putMSSByAddr L1 R1 m1 st).2).2 =
       (putMSSByAddr L2 R2 m2 st).2).
Proof.
  split.
  - intros Hne. split.
    + rewrite !GetMSSByAddr_lookup. unfold putMSSByAddr. simpl.
      fold (AddrKey L1 R1). by rewrite lookup_insert_ne.
    + unfold putMSSByAddr, set_mssCache. simpl.
      fold (AddrKey L1 R1) (AddrKey L2 R2). f_equal.
      by apply insert_insert_ne.
  - intros Heq. unfold putMSSByAddr, set_mssCache. simpl.
    fold (AddrKey L1 R1) (AddrKey L2 R2). f_equal.
    rewrite Heq. apply insert_insert_eq.
Qed.

(** X5.  The same for the listener cache, whose key is one printed
    address. *)
Theorem listener_entries_independent (st : State) (A1 A2 : Addr)
    (l1 l2 : RAWListener) :
  (Addr_String A1 ≠ Addr_String A2 →
     (GetListenerByAddr A2 (putListenerByAddr A1 l1 st).2).1 =
       (GetListenerByAddr A2 st).1 ∧
     (putListenerByAddr A2 l2 (putListenerByAddr A1 l1 st).2).2 =
       (putListenerByAddr A1 l1 (putListenerByAddr A2 l2 st).2).2) ∧
  (Addr_String A1 = Addr_String A2 →
     (putListenerByAddr A2 l2 (putListenerByAddr A1 l1 st).2).2 =
       (putListenerByAddr A2 l2 st).2 ∧
     (GetListenerByAddr A1 (putListenerByAddr A2 l2
        (putListenerByAddr A1 l1 st).2).2).1 = Some l2).
Proof.
  split.
  - intros Hne. split.
    + rewrite !GetListenerByAddr_lookup. unfold putListenerByAddr. simpl.
      by rewrite lookup_insert_ne.
    + unfold putListenerByAddr, set_lisCache. simpl. f_equal.
      by apply insert_insert_ne.
  - intros Heq. split.
    + unfold putListenerByAddr, set_lisCache. simpl. f_equal.
      rewrite Heq. apply insert_insert_eq.
    + rewrite GetListenerByAddr_lookup. unfold putListenerByAddr. simpl.
      rewrite Heq. apply lookup_insert_eq.
Qed.

(** ** The caches along a history *)

Lemma exec_mssCache_record (c : ApiCall) (st : State) :
  mssCache (exec c st) =
  foldl record_mss (mssCache st) (option_list (dial_obtained c st)).
Proof. rewrite exec_mssCache. by destruct (dial_obtained c st). Qed.

Lemma exec_lisCache_record (c : ApiCall) (st : State) :
  lisCache (exec c st) =
  foldl record_listener (lisCache st) (option_list (listen_obtained c st)).
Proof. rewrite exec_lisCache. by destruct (listen_obtained c st). Qed.

Lemma mssCache_replay (h : list ApiCall) (st : State) :
  mssCache (run h st) = foldl record_mss (mssCache st) (dialed h st).
Proof.
  revert st. induction h as [|c h IH]; intros st; [done|].
  rewrite run_cons, IH. simpl. rewrite foldl_app.
  by rewrite exec_mssCache_record.
Qed.

Lemma lisCache_replay (h : list ApiCall) (st : State) :
  lisCache (run h st) = foldl record_listener (lisCache st) (listened h st).
Proof.
  revert st. induction h as [|c h IH]; intros st; [done|].
  rewrite run_cons, IH. simpl. rewrite foldl_app.
  by rewrite exec_lisCache_record.
Qed.

(** X8.  After any history, the MSS cache is the cache of the start with
    the raw connections of the plain dials written over it in the order of
    the dials, and the listener cache is the cache of the start with the raw
    listeners of the plain listens written over it in order. *)
Theorem caches_replay_history (h : list ApiCall) (st : State) :
  mssCache (run h st) = foldl record_mss (mssCache st) (dialed h st) ∧
  lisCache (run h st) = foldl record_listener (lisCache st) (listened h st).
Proof. split; [apply mssCache_replay | apply lisCache_replay]. Qed.

Lemma foldl_record_mss_is_Some (conns : list RAWConn) (m : gmap string Z)
    (k : string) :
  is_Some (m !! k) → is_Some (foldl record_mss m conns !! k).
Proof.
  revert m. induction conns as [|c conns IH]; intros m Hk; [done|].
  simpl. apply IH. unfold record_mss.
  destruct (decide (AddrKey (LocalAddr c) (RemoteAddr c) = k)) as [->|Hne].
  - rewrite lookup_insert_eq. eauto.
  - by rewrite lookup_insert_ne.
Qed.

Lemma foldl_record_listener_is_Some (ls : list RAWListener)
    (m : gmap string RAWListener) (k : string) :
  is_Some (m !! k) → is_Some (foldl record_listener m ls !! k).
Proof.
  revert m. induction ls as [|l ls IH]; intros m Hk; [done|].
  simpl. apply IH. unfold record_listener.
  destruct (decide (Addr_String (Listener_LocalAddr l) = k)) as [->|Hne].
  - rewrite lookup_insert_eq. eauto.
  - by rewrite lookup_insert_ne.
Qed.

(** X7.  No call removes an entry: a key that is in a cache is still in it
    after any history of calls. *)
Theorem cache_entries_never_deleted (h : list ApiCall) (st : State)
    (k : string) :
  (is_Some (mssCache st !! k) → is_Some (mssCache (run h st) !! k)) ∧
  (is_Some (lisCache st !! k) → is_Some (lisCache (run h st) !! k)).
Proof.
  split; intros Hk.
  - rewrite mssCache_replay. by apply foldl_record_mss_is_Some.
  - rewrite lisCache_replay. by apply foldl_record_listener_is_Some.
Qed.

Lemma foldl_record_mss_origin (conns : list RAWConn) (m : gmap string Z)
    (k : string) (v : Z) :
  foldl record_mss m conns !! k = Some v →
  m !! k = Some v ∨
  ∃ c, c ∈ conns ∧ AddrKey (LocalAddr c) (RemoteAddr c) = k ∧ GetMSS c = v.
Proof.
  revert m. induction conns as [|c conns IH]; intros m Hk; [by left|].
  simpl in Hk. apply IH in Hk as [Hk|(c' & Hin & Hkey & Hv)].
  - unfold record_mss in Hk.
    destruct (decide (AddrKey (LocalAddr c) (RemoteAddr c) = k)) as [Heq|Hne].
    + rewrite Heq, lookup_insert_eq in Hk. injection Hk as <-.
      right. exists c. split_and!; [left | done | done].
    + rewrite lookup_insert_ne in Hk by done. by left.
  - right. exists c'. split_and!; [by right | done | done].
Qed.

Lemma foldl_record_listener_origin (ls : list RAWListener)
    (m : gmap string RAWListener) (k : string) (v : RAWListener) :
  foldl record_listener m ls !! k = Some v →
  m !! k = Some v ∨
  (v ∈ ls ∧ Addr_String (Listener_LocalAddr v) = k).
Proof.
  revert m. induction ls as [|l ls IH]; intros m Hk; [by left|].
  simpl in Hk. apply IH in Hk as [Hk|(Hin & Hkey)].
  - unfold record_listener in Hk.
    destruct (decide (Addr_String (Listener_LocalAddr l) = k)) as [Heq|Hne].
    + rewrite Heq, lookup_insert_eq in Hk. injection Hk as <-.
      right. split; [left | done].
    + rewrite lookup_insert_ne in Hk by done. by left.
  - right. split; [by right | done].
Qed.

(** X9.  What a lookup returns was put there by a plain dial or a plain
    listen.  From the initial state, a nonzero MSS returned for (L, R) is
    the MSS of a raw connection that some plain dial of the history
    obtained, whose key is the key of (L, R); and a listener returned for A
    is a raw listener that some plain listen of the history obtained, bound
    at an address that prints as A does. *)
Theorem lookup_results_have_origin (w0 : World) (h : list ApiCall) :
  (∀ (L R : Addr) (m : Z),
     (GetMSSByAddr L R (run h (init w0))).1 = m → m ≠ 0 →
     ∃ c, c ∈ dialed h (init w0) ∧
          AddrKey (LocalAddr c) (RemoteAddr c) = AddrKey L R ∧ GetMSS c = m) ∧
  (∀ (A : Addr) (lis : RAWListener),
     (GetListenerByAddr A (run h (init w0))).1 = Some lis →
     lis ∈ listened h (init w0) ∧
     Addr_String (Listener_LocalAddr lis) = Addr_String A).
Proof.
  split.
  - intros L R m Hget Hnz. rewrite GetMSSByAddr_lookup, mssCache_replay in Hget.
    destruct (foldl record_mss (mssCache (init w0)) (dialed h (init w0))
                !! AddrKey L R) as [v|] eqn:Hk; simpl in Hget; [|congruence].
    subst v. apply foldl_record_mss_origin in Hk as [Hk|Hk]; [|done].
    simpl in Hk. by rewrite lookup_empty in Hk.
  - intros A lis Hget.
    rewrite GetListenerByAddr_lookup, lisCache_replay in Hget.
    apply foldl_record_listener_origin in Hget as [Hk|Hk]; [|done].
    simpl in Hk. by rewrite lookup_empty in Hk.
Qed.

Lemma foldl_record_mss_last (conns : list RAWConn) (m : gmap string Z)
    (k : string) :
  foldl record_mss m conns !! k =
  match last (filter (λ c, AddrKey (LocalAddr c) (RemoteAddr c) = k) conns) with
  | Some c => Some (GetMSS c)
  | None => m !! k
  end.
Proof.
  revert m. induction conns as [|c conns IH]; intros m; [done|].
  simpl. rewrite IH. unfold record_mss at 1.
  destruct (decide (AddrKey (LocalAddr c) (RemoteAddr c) = k)) as [Heq|Hne].
  - rewrite filter_cons_True by done. rewrite last_cons.
    destruct (last _); [done|]. by rewrite Heq, lookup_insert_eq.
  - rewrite filter_cons_False by done.
    destruct (last _); [done|]. by rewrite lookup_insert_ne.
Qed.

Lemma foldl_record_listener_last (ls : list RAWListener)
    (m : gmap string RAWListener) (k : string) :
  foldl record_listener m ls !! k =
  match last (filter (λ l, Addr_String (Listener_LocalAddr l) = k) ls) with
  | Some l => Some l
  | None => m !! k
  end.
Proof.
  revert m. induction ls as [|l ls IH]; intros m; [done|].
  simpl. rewrite IH. unfold record_listener at 1.
  destruct (decide (Addr_String (Listener_LocalAddr l) = k)) as [Heq|Hne].
  - rewrite filter_cons_True by done. rewrite last_cons.
    destruct (last _); [done|]. by rewrite Heq, lookup_insert_eq.
  - rewrite filter_cons_False by done.
    destruct (last _); [done|]. by rewrite lookup_insert_ne.
Qed.

(** X2.  The last writer wins.  From the initial state, the MSS returned
    for (L, R) after a history is the MSS of the latest raw connection,
    among those that the plain dials of the history obtained, whose key is
    the key of (L, R), and zero if there is none; the listener returned for
    A is the latest raw listener, among those of the plain listens, bound at
    an address that prints as A does, and nil if there is none. *)
Theorem lookup_is_last_write (w0 : World) (h : list ApiCall) (L R A : Addr) :
  (GetMSSByAddr L R (run h (init w0))).1 =
    default 0
      (GetMSS <$>
       last (filter (λ c, AddrKey (LocalAddr c) (RemoteAddr c) = AddrKey L R)
               (dialed h (init w0)))) ∧
  (GetListenerByAddr A (run h (init w0))).1 =
    last (filter (λ l, Addr_String (Listener_LocalAddr l) = Addr_String A)
            (listened h (init w0))).
Proof.
  split.
  - rewrite GetMSSByAddr_lookup, mssCache_replay, foldl_record_mss_last.
    destruct (last _); [done|]. simpl. by rewrite lookup_empty.
  - rewrite GetListenerByAddr_lookup, lisCache_replay,
      foldl_record_listener_last.
    destruct (last _); [done|]. simpl. by rewrite lookup_empty.
Qed.

(** ** Failures *)

(** X10.  An entry point that validates its address ([DialWithOptions],
    [DialMulWithOptions], [ListenWithOptions]) and finds it invalid returns
    the validation error wrapped as "checkAddr" and leaves the whole state
    as it was: nothing was called, nothing was recorded. *)
Theorem validation_failure_is_a_no_op (c : ApiCall) (st : State) (e : error) :
  call_validation c = Some e →
  exec c st = st ∧ call_error c st = Some (Wrap e "checkAddr").
Proof.
  destruct c; simpl; try done; intros Hchk.
  - unfold DialWithOptions. by rewrite Hchk.
  - unfold DialMulWithOptions. by rewrite Hchk.
  - unfold ListenWithOptions. by rewrite Hchk.
Qed.

(** X11.  When the address is valid and the raw listen fails, the plain
    listen returns that error wrapped as "net.ListenRAW", and both caches
    are as they were. *)
Theorem failed_listen_records_nothing (st : State) (laddr : string)
    (block : BlockCrypt) (dataShards parityShards : Z) (e : error)
    (w : World) :
  checkAddr laddr = None →
  ListenRAW (raw st) laddr (world st) = (Err e, w) →
  let out := ListenWithOptions laddr block dataShards parityShards st in
  out.1 = Err (Wrap e "net.ListenRAW") ∧ caches_unchanged st out.2.
Proof.
  intros Hchk Hlis. unfold_M. rewrite Hchk. simpl. rewrite Hlis. simpl.
  by split.
Qed.

(** X6.  The cache write is not undone when the session engine fails
    afterwards: the plain dial then returns the engine's error as it came
    and the MSS of the raw connection stays in the cache, and the plain
    listen returns the engine's error and the raw listener stays in the
    cache. *)
Theorem entry_survives_session_failure (st : State) (addr : string)
    (block : BlockCrypt) (dataShards parityShards : Z) (e : error)
    (w w' : World) :
  (∀ conn : RAWConn,
     checkAddr addr = None →
     DialRAW (raw st) addr (world st) = (Ok conn, w) →
     kcp_NewConn addr block dataShards parityShards (ConnRAW conn) w =
       (Err e, w') →
     let out := DialWithOptions addr block dataShards parityShards st in
     out.1 = Err e ∧
     (GetMSSByAddr (LocalAddr conn) (RemoteAddr conn) out.2).1 = GetMSS conn) ∧
  (∀ lis : RAWListener,
     checkAddr addr = None →
     ListenRAW (raw st) addr (world st) = (Ok lis, w) →
     kcp_ServeConn block dataShards parityShards (ConnRAWListener lis) w =
       (Err e, w') →
     let out := ListenWithOptions addr block dataShards parityShards st in
     out.1 = Err e ∧
     (GetListenerByAddr (Listener_LocalAddr lis) out.2).1 = Some lis).
Proof.
  split.
  - intros conn Hchk Hdial Hnew. cbv zeta. split.
    + unfold_M. rewrite Hchk. simpl. rewrite Hdial. simpl. by rewrite Hnew.
    + rewrite GetMSSByAddr_lookup.
      by rewrite (DialWithOptions_records st addr block _ _ conn w).
  - intros lis Hchk Hlis Hserve. cbv zeta. split.
    + unfold_M. rewrite Hchk. simpl. rewrite Hlis. simpl. by rewrite Hserve.
    + rewrite GetListenerByAddr_lookup.
      by rewrite (ListenWithOptions_records st addr block _ _ lis w).
Qed.

(** ** What the collaborators are given *)

(** X15.  [ListenMulWithOptions] validates nothing.  What it returns and
    the world it leaves, for every address, also one that [checkAddr]
    rejects: the raw listen on that address under the current
    configuration, its error wrapped as "net.ListenRAW"; then [mulcon.Listen]
    on the raw listener with method "chacha20-ietf" and the caller's
    password, its error wrapped as "ListenMulWithOptions"; then
    [kcp.ServeConn] on the multiplexer's listener with the caller's cipher
    and shard counts, whose result is returned as it comes. *)
Theorem ListenMulWithOptions_calls (st : State) (laddr : string)
    (block : BlockCrypt) (dataShards parityShards : Z) (password : string) :
  observe (ListenMulWithOptions laddr block dataShards parityShards password)
    st =
  (let '(r, w) := ListenRAW (raw st) laddr (world st) in
   match r with
   | Err e => (Err (Wrap e "net.ListenRAW"), w)
   | Ok lis =>
       let '(rm, w') :=
         mulcon_Listen (ConnRAWListener lis) "chacha20-ietf" password w in
       match rm with
       | Err e => (Err (Wrap e "ListenMulWithOptions"), w')
       | Ok listener =>
           kcp_ServeConn block dataShards parityShards
             (ConnMulListener listener) w'
       end
   end).
Proof.
  unfold observe. unfold_M. unfold mulconMethod. split_calls; reflexivity.
Qed.

(** X16.  [DialMulWithOptions] makes no raw dial of its own.  Its dial
    function, whenever it is called, makes one raw dial to the caller's
    address under the configuration that the package has at that moment,
    and changes nothing but the world.  On an invalid address the entry
    point calls nothing; on a valid one it runs [mulcon.Dial] with that
    dial function, the caller's connection count, method "chacha20-ietf"
    and the caller's password, wraps its error as "DialMulWithOptions", and
    gives its connection to [kcp.NewConn] with the caller's address, cipher
    and shard counts, whose result is returned as it comes. *)
Theorem DialMulWithOptions_calls (st : State) (raddr : string)
    (block : BlockCrypt) (dataShards parityShards : Z) (password : string)
    (mulconn : Z) :
  (∀ s : State,
     raw_dialer raddr s =
     (let '(c, w) := DialRAW (raw s) raddr (world s) in
      (result_map ConnRAW c, set_world w s))) ∧
  observe (DialMulWithOptions raddr block dataShards parityShards password
             mulconn) st =
    match checkAddr raddr with
    | Some e => (Err (Wrap e "checkAddr"), world st)
    | None =>
        let '(rm, w) :=
          observe (run_mux (raw_dialer raddr)
                     (mulcon_Dial mulconn "chacha20-ietf" password (world st)))
            st in
        match rm with
        | Err e => (Err (Wrap e "DialMulWithOptions"), w)
        | Ok conn =>
            kcp_NewConn raddr block dataShards parityShards (ConnMul conn) w
        end
    end.
Proof.
  split.
  - intros s.
    unfold raw_dialer, mbind, mret, M_bind, M_ret, perform, get_raw.
    by destruct (DialRAW (raw s) raddr (world s)).
  - unfold observe. unfold_M. unfold mulconMethod. split_calls; reflexivity.
Qed.

(** ** The configuration *)

Lemma exec_raw_frame (c : ApiCall) (st : State) :
  is_setter c = false → raw (exec c st) = raw st.
Proof.
  destruct c; simpl; try done; intros _; unfold_M; split_calls; done.
Qed.

Lemma exec_raw_setter (c : ApiCall) (st st' : State) :
  is_setter c = true → raw st = raw st' → raw (exec c st) = raw (exec c st').
Proof.
  destruct c; simpl; try done; intros _ Hraw; unfold_M; simpl;
    by rewrite Hraw.
Qed.

Lemma raw_run_setters (h : list ApiCall) (st st' : State) :
  raw st = raw st' → raw (run h st) = raw (run (filter is_setter h) st').
Proof.
  revert st st'. induction h as [|c h IH]; intros st st' Hraw; [done|].
  rewrite run_cons. destruct (is_setter c) eqn:Hc.
  - rewrite filter_cons_True by (by rewrite Hc). rewrite run_cons.
    apply IH. by apply exec_raw_setter.
  - rewrite filter_cons_False by (rewrite Hc; simpl; tauto).
    apply IH. by rewrite exec_raw_frame.
Qed.

Lemma setter_frame (c : ApiCall) (st : State) :
  is_setter c = true →
  world (exec c st) = world st ∧ caches_unchanged st (exec c st) ∧
  calls (exec c st) = calls st.
Proof. destruct c; simpl; try done; intros _; by split_and!. Qed.

(** X1.  The raw transport is handed the configuration that the setters
    made.  After any history, the configuration of the package is the
    starting configuration as changed by the setter calls of the history
    alone, each of which stores its argument in its field; and that is the
    configuration with which a plain dial, a plain listen and a multiplexed
    raw listen then call the raw transport, as their returned value and the
    world they leave show. *)
Theorem settings_reach_transport (h : list ApiCall) (st : State)
    (addr : string) (block : BlockCrypt) (dataShards parityShards : Z)
    (password : string) (b : bool) (host : string) (dscp : Z) :
  let now := run h st in
  let cfg := raw (run (filter is_setter h) st) in
  raw now = cfg ∧
  (raw (exec (CallSetNoHTTP b) now) =
     mkRaw b (Host cfg) (DSCP cfg) (IgnRST cfg) (Mixed cfg) ∧
   raw (exec (CallSetHost host) now) =
     mkRaw (NoHTTP cfg) host (DSCP cfg) (IgnRST cfg) (Mixed cfg) ∧
   raw (exec (CallSetDSCP dscp) now) =
     mkRaw (NoHTTP cfg) (Host cfg) dscp (IgnRST cfg) (Mixed cfg) ∧
   raw (exec (CallSetIgnRST b) now) =
     mkRaw (NoHTTP cfg) (Host cfg) (DSCP cfg) b (Mixed cfg) ∧
   raw (exec (CallSetMixed b) now) =
     mkRaw (NoHTTP cfg) (Host cfg) (DSCP cfg) (IgnRST cfg) b) ∧
  (checkAddr addr = None →
     observe (DialWithOptions addr block dataShards parityShards) now =
       (let '(r, w) := DialRAW cfg addr (world now) in
        match r with
        | Err e => (Err (Wrap e "net.DialRAW"), w)
        | Ok conn =>
            kcp_NewConn addr block dataShards parityShards (ConnRAW conn) w
        end) ∧
     observe (ListenWithOptions addr block dataShards parityShards) now =
       (let '(r, w) := ListenRAW cfg addr (world now) in
        match r with
        | Err e => (Err (Wrap e "net.ListenRAW"), w)
        | Ok lis =>
            kcp_ServeConn block dataShards parityShards (ConnRAWListener lis) w
        end)) ∧
  observe (ListenMulWithOptions addr block dataShards parityShards password)
    now =
  (let '(r, w) := ListenRAW cfg addr (world now) in
   match r with
   | Err e => (Err (Wrap e "net.ListenRAW"), w)
   | Ok lis =>
       let '(rm, w') :=
         mulcon_Listen (ConnRAWListener lis) mulconMethod password w in
       match rm with
       | Err e => (Err (Wrap e "ListenMulWithOptions"), w')
       | Ok listener =>
           kcp_ServeConn block dataShards parityShards
             (ConnMulListener listener) w'
       end
   end).
Proof.
  cbv zeta. rewrite <- (raw_run_setters h st st eq_refl).
  generalize (run h st). intros now. split_and!; try reflexivity.
  - intros Hchk. unfold observe. split.
    + unfold_M. rewrite Hchk. split_calls; reflexivity.
    + unfold_M. rewrite Hchk. split_calls; reflexivity.
  - unfold observe. unfold_M. split_calls; reflexivity.
Qed.

(** X3.  A setter changes the configuration and nothing else: the world,
    both caches and the log are as before.  Setting one field twice leaves
    what the later call set alone, and setters of different fields give the
    same state in either order. *)
Theorem setters_overwrite_and_commute (a b : ApiCall) (f g : Field)
    (st : State) :
  setter_field a = Some f →
  setter_field b = Some g →
  (world (exec a st) = world st ∧ caches_unchanged st (exec a st) ∧
   calls (exec a st) = calls st) ∧
  (f = g → exec a (exec b st) = exec a st) ∧
  (f ≠ g → exec a (exec b st) = exec b (exec a st)).
Proof.
  intros Ha Hb. split; [|split].
  - apply setter_frame. unfold is_setter. by rewrite Ha.
  - intros <-. destruct a, b; simpl in Ha, Hb; try done;
      injection Ha as <-; try done; reflexivity.
  - intros Hne. destruct a, b; simpl in Ha, Hb; try done;
      injection Ha as <-; injection Hb as <-; try done; reflexivity.
Qed.

(** X14.  The plain-UDP variants do not read the configuration: run from
    two states that differ in it alone, they return the same result and
    leave the same world, caches and log. *)
Theorem udp_variants_ignore_settings (cfg : Raw) (st : State) (addr : string)
    (block : BlockCrypt) (dataShards parityShards : Z) :
  DialMulWithOptions_udp addr block dataShards parityShards (set_raw cfg st) =
    (let out := DialMulWithOptions_udp addr block dataShards parityShards st in
     (out.1, set_raw cfg out.2)) ∧
  ListenMulWithOptions_udp addr block dataShards parityShards (set_raw cfg st) =
    (let out := ListenMulWithOptions_udp addr block dataShards parityShards st
     in (out.1, set_raw cfg out.2)).
Proof.
  split; unfold_M; split_calls; reflexivity.
Qed.

(** ** Lookups *)

Lemma exec_lookup (c : ApiCall) (st : State) :
  is_lookup c = true → exec c st = st.
Proof.
  destruct c; simpl; try done; intros _.
  - apply GetMSSByAddr_state.
  - apply GetListenerByAddr_state.
Qed.

(** X13.  Lookups only read: a lookup leaves the whole state as it was, so
    a history ends in the same state with its lookups taken out, and a
    lookup repeated at once returns what it returned first. *)
Theorem lookups_only_read (h : list ApiCall) (st : State) (L R A : Addr) :
  run (filter (λ c, is_lookup c = false) h) st = run h st ∧
  (GetMSSByAddr L R (GetMSSByAddr L R st).2).1 = (GetMSSByAddr L R st).1 ∧
  (GetListenerByAddr A (GetListenerByAddr A st).2).1 =
    (GetListenerByAddr A st).1.
Proof.
  split_and!.
  - revert st. induction h as [|c h IH]; intros st; [done|].
    destruct (is_lookup c) eqn:Hc.
    + rewrite filter_cons_False by (by rewrite Hc).
      rewrite run_cons, exec_lookup by done. apply IH.
    + rewrite filter_cons_True by done. rewrite !run_cons. apply IH.
  - by rewrite GetMSSByAddr_state.
  - by rewrite GetListenerByAddr_state.
Qed.

End Further.

(** * The stub platform at work *)

Import Stub.

(** A raw-transport stub that reports MSS 1400: the dial returns a session
    and the MSS is found under the connection's own address pair. *)
Example dial_scenario :
  let out := DialWithOptions "10.0.0.1:1234" tt 10 3 (init all_fine) in
  out.1 = Ok "10.0.0.1:1234" ∧
  (GetMSSByAddr local_end (mkAddr "tcp" "10.0.0.1:1234") out.2).1 = 1400.
Proof. vm_compute. done. Qed.

(** The wildcard host is refused before the transport is touched. *)
Example wildcard_scenario :
  let out := DialWithOptions "0.0.0.0:1234" tt 10 3 (init all_fine) in
  out.1 = Err (Wrap (Errorf "You can't set host to 0.0.0.0") "checkAddr") ∧
  transport_calls (world out.2) = 0%nat ∧ calls out.2 = [].
Proof. vm_compute. done. Qed.

(** The plain-UDP dial takes the same address without complaint, where the
    multiplexed raw dial refuses it. *)
Example wildcard_udp_scenario :
  (DialMulWithOptions_udp "0.0.0.0:1234" tt 10 3 (init all_fine)).1 =
    Ok "0.0.0.0:1234" ∧
  (DialMulWithOptions "0.0.0.0:1234" tt 10 3 "secret" 4 (init all_fine)).1 =
    Err (Wrap (Errorf "You can't set host to 0.0.0.0") "checkAddr").
Proof. vm_compute. done. Qed.

(** A dial that the transport refuses inside the dial function comes back
    from the multiplexed dial as a multiplex error. *)
Example refused_inside_multiplexer :
  (DialMulWithOptions "10.0.0.1:1234" tt 10 3 "secret" 4
     (init (mkWorld false true false false 0))).1 =
  Err (Wrap (OtherError "connection refused") "DialMulWithOptions").
Proof. vm_compute. done. Qed.

Example listen_scenario :
  let out := ListenWithOptions "127.0.0.1:5000" tt 10 3 (init all_fine) in
  out.1 = Ok tt ∧
  (GetListenerByAddr (mkAddr "tcp" "127.0.0.1:5000") out.2).1 =
    Some (0%nat, mkAddr "tcp" "127.0.0.1:5000").
Proof. vm_compute. done. Qed.

Lemma checkAddr_fails_exactly_witness :
  checkAddr "0.0.0.0:1234" = Some (Errorf "You can't set host to 0.0.0.0") ∧
  checkAddr ":1234" = Some (Errorf "You must set the addr to ip:port") ∧
  checkAddr "10.0.0.1" =
    Some (AddrError "missing port in address" "10.0.0.1") ∧
  checkAddr "10.0.0.1:1234" = None.
Proof.
  pose proof (checkAddr_fails_exactly "0.0.0.0:1234") as H1.
  pose proof (checkAddr_fails_exactly ":1234") as H2.
  pose proof (checkAddr_fails_exactly "10.0.0.1") as H3.
  pose proof (checkAddr_fails_exactly "10.0.0.1:1234") as H4.
  split_and!.
  - exact (proj2 (proj2 H1)).
  - exact (proj2 (proj2 H2)).
  - exact (proj2 (proj2 H3)).
  - apply (proj2 (proj1 (proj2 H4))). split_and!; [reflexivity | |]; intros [=].
Defined.

Lemma same_print_same_entry_witness :
  mkAddr "tcp" "10.0.0.2:5000" ≠ mkAddr "udp" "10.0.0.2:5000" ∧
  (GetMSSByAddr (mkAddr "udp" "10.0.0.2:5000") (mkAddr "udp" "10.0.0.1:1234")
     (putMSSByAddr (mkAddr "tcp" "10.0.0.2:5000") (mkAddr "tcp" "10.0.0.1:1234")
        1400 (init all_fine)).2).1 = 1400.
Proof.
  split; [intros [=]|].
  apply same_print_same_entry; reflexivity.
Defined.

Lemma key_not_injective_witness :
  let L1 := mkAddr "tcp" "10.0.0.2:5000" in
  let R1 := mkAddr "tcp" "110.1.2.3:443" in
  let L2 := mkAddr "tcp" "10.0.0.2:50001" in
  let R2 := mkAddr "tcp" "10.1.2.3:443" in
  (GetMSSByAddr L2 R2 (init all_fine)).1 = 0 ∧
  (GetMSSByAddr L2 R2 (putMSSByAddr L1 R1 1400 (init all_fine)).2).1 = 1400.
Proof.
  cbv zeta. split; [reflexivity|].
  apply (proj2 (key_not_injective (P := platform)) _ _ _ _ _ 1400 0).
  reflexivity.
Defined.

Lemma plain_dial_records_mss_witness :
  let call := CallDialWithOptions "10.0.0.1:1234" tt 10 3 in
  (GetMSSByAddr local_end (mkAddr "tcp" "10.0.0.1:1234")
     (run [call] (init all_fine))).1 = 1400 ∧
  (GetMSSByAddr (mkAddr "tcp" "9.9.9.9:1") (mkAddr "tcp" "8.8.8.8:2")
     (run [call] (init all_fine))).1 = 0.
Proof.
  cbv zeta. destruct (plain_dial_records_mss (P := platform)) as [Hdial Hnone]. split.
  - apply (Hdial (init (P := platform) all_fine) _ "10.0.0.1:1234" tt 10 3
             (local_end, mkAddr "tcp" "10.0.0.1:1234", 1400)
             (count_transport all_fine) "10.0.0.1:1234" []).
    + reflexivity.
    + reflexivity.
    + constructor.
  - apply (Hnone all_fine). simpl. repeat constructor. intros [=].
Defined.

Lemma plain_listen_records_listener_witness :
  let call := CallListenWithOptions "127.0.0.1:5000" tt 10 3 in
  (GetListenerByAddr (mkAddr "tcp" "127.0.0.1:5000")
     (run [call] (init all_fine))).1 =
    Some (0%nat, mkAddr "tcp" "127.0.0.1:5000") ∧
  (GetListenerByAddr (mkAddr "tcp" "127.0.0.1:5001")
     (run [call] (init all_fine))).1 = None.
Proof.
  cbv zeta. destruct (plain_listen_records_listener (P := platform)) as [Hlis Hnone]. split.
  - apply (Hlis (init (P := platform) all_fine) _ "127.0.0.1:5000" tt 10 3
             (0%nat, mkAddr "tcp" "127.0.0.1:5000")
             (count_transport all_fine) tt []).
    + reflexivity.
    + reflexivity.
    + constructor.
  - apply (Hnone all_fine). simpl. repeat constructor. intros [=].
Defined.

Lemma failed_dial_records_nothing_witness :
  let refused := mkWorld false true false false 0 in
  DialWithOptions "0.0.0.0:1234" tt 10 3 (init all_fine) =
    (Err (Wrap (Errorf "You can't set host to 0.0.0.0") "checkAddr"),
     init all_fine) ∧
  (DialWithOptions "10.0.0.1:1234" tt 10 3 (init refused)).1 =
    Err (Wrap (OtherError "connection refused") "net.DialRAW") ∧
  mssCache (DialWithOptions "10.0.0.1:1234" tt 10 3 (init refused)).2 = ∅.
Proof.
  cbv zeta. split.
  - apply (proj1 (failed_dial_records_nothing (P := platform)
                    (init (P := platform) all_fine) "0.0.0.0:1234" tt 10 3)).
    reflexivity.
  - destruct (proj2 (failed_dial_records_nothing (P := platform)
                       (init (P := platform) (mkWorld false true false false 0))
                       "10.0.0.1:1234" tt 10 3)
                (OtherError "connection refused")
                (count_transport (mkWorld false true false false 0)))
      as (Herr & Hmss & _); [reflexivity | reflexivity |].
    split; [exact Herr | exact Hmss].
Defined.

(** The second half of C2 as the spec words it: a pair under which no dial
    recorded anything reads zero.  It fails when the two printed addresses of
    another pair join to the same string. *)
Lemma unrecorded_pair_reads_nonzero :
  ¬ (∀ (h : list ApiCall) (L R : Addr),
       Forall (λ c, (Addr_String (LocalAddr c), Addr_String (RemoteAddr c)) ≠
                    (Addr_String L, Addr_String R))
              (dialed h (init all_fine)) →
       (GetMSSByAddr L R (run h (init all_fine))).1 = 0).
Proof.
  intros Hclaim.
  specialize (Hclaim [CallDialWithOptions "110.1.2.3:443" tt 10 3]
                (mkAddr "tcp" "10.0.0.2:50001") (mkAddr "tcp" "10.1.2.3:443")).
  assert ((GetMSSByAddr (mkAddr "tcp" "10.0.0.2:50001")
             (mkAddr "tcp" "10.1.2.3:443")
             (run [CallDialWithOptions "110.1.2.3:443" tt 10 3]
                (init all_fine))).1 = 1400) as Hgot by reflexivity.
  rewrite Hclaim in Hgot; [discriminate|].
  simpl. repeat constructor. intros [=].
Qed.

(** C4 as the spec words it: every error that comes back carries the stage
    that produced it.  The error of a failed session wrap carries none. *)
Lemma session_error_not_annotated :
  ¬ (∀ (st : State) raddr block ds ps (err : error),
       (DialWithOptions raddr block ds ps st).1 = Err err →
       is_Some (error_stage err)).
Proof.
  intros Hclaim.
  destruct (Hclaim (init (P := platform) (mkWorld false false false true 0))
              "10.0.0.1:1234" tt 10 3 (OtherError "bad shard count"))
    as [s Hs].
  - reflexivity.
  - discriminate Hs.
Qed.

(** ** The further properties on the stub platform *)

Lemma settings_reach_transport_witness :
  let h := [CallSetNoHTTP true;
            CallDialWithOptions "10.0.0.1:1234" tt 10 3;
            CallSetHost "example.com"] in
  let cfg := mkRaw true "example.com" 0 false false in
  raw (run h (init all_fine)) = cfg ∧
  observe (DialWithOptions "10.0.0.9:80" tt 10 3) (run h (init all_fine)) =
    (let '(r, w) := DialRAW cfg "10.0.0.9:80" (world (run h (init all_fine))) in
     match r with
     | Err e => (Err (Wrap e "net.DialRAW"), w)
     | Ok conn => kcp_NewConn "10.0.0.9:80" tt 10 3 (ConnRAW conn) w
     end).
Proof.
  cbv zeta.
  pose proof (settings_reach_transport (P := platform)
                [CallSetNoHTTP true;
                 CallDialWithOptions "10.0.0.1:1234" tt 10 3;
                 CallSetHost "example.com"]
                (init (P := platform) all_fine) "10.0.0.9:80" tt 10 3 "pw"
                true "example.com" 0)
    as (Hraw & _ & Hvalid & _).
  split; [exact Hraw|].
  exact (proj1 (Hvalid eq_refl)).
Defined.

Lemma setters_overwrite_and_commute_witness :
  let st := init all_fine in
  exec (CallSetDSCP 46) (exec (CallSetDSCP 8) st) = exec (CallSetDSCP 46) st ∧
  exec (CallSetNoHTTP true) (exec (CallSetHost "example.com") st) =
    exec (CallSetHost "example.com") (exec (CallSetNoHTTP true) st).
Proof.
  cbv zeta. split.
  - apply (setters_overwrite_and_commute (P := platform) (CallSetDSCP 46)
             (CallSetDSCP 8) FDSCP FDSCP (init (P := platform) all_fine)
             eq_refl eq_refl).
    reflexivity.
  - apply (setters_overwrite_and_commute (P := platform) (CallSetNoHTTP true)
             (CallSetHost "example.com") FNoHTTP FHost
             (init (P := platform) all_fine) eq_refl eq_refl).
    discriminate.
Defined.

Lemma mss_entries_independent_witness :
  let st := (putMSSByAddr (mkAddr "tcp" "10.0.0.2:5001")
               (mkAddr "tcp" "10.0.0.1:1234") 1200 (init all_fine)).2 in
  (GetMSSByAddr (mkAddr "tcp" "10.0.0.2:5001") (mkAddr "tcp" "10.0.0.1:1234")
     (putMSSByAddr (mkAddr "tcp" "10.0.0.2:5000")
        (mkAddr "tcp" "10.0.0.1:1234") 1400 st).2).1 = 1200 ∧
  (putMSSByAddr (mkAddr "tcp" "10.0.0.2:50001") (mkAddr "tcp" "10.1.2.3:443")
     1300
     (putMSSByAddr (mkAddr "tcp" "10.0.0.2:5000")
        (mkAddr "tcp" "110.1.2.3:443") 1400 st).2).2 =
  (putMSSByAddr (mkAddr "tcp" "10.0.0.2:50001") (mkAddr "tcp" "10.1.2.3:443")
     1300 st).2.
Proof.
  cbv zeta. split.
  - etransitivity.
    + apply (mss_entries_independent (P := platform)
               (putMSSByAddr (mkAddr "tcp" "10.0.0.2:5001")
                  (mkAddr "tcp" "10.0.0.1:1234") 1200
                  (init (P := platform) all_fine)).2
               (mkAddr "tcp" "10.0.0.2:5000") (mkAddr "tcp" "10.0.0.1:1234")
               (mkAddr "tcp" "10.0.0.2:5001") (mkAddr "tcp" "10.0.0.1:1234")
               1400 0).
      intros [=].
    + reflexivity.
  - apply (mss_entries_independent (P := platform)
             (putMSSByAddr (mkAddr "tcp" "10.0.0.2:5001")
                (mkAddr "tcp" "10.0.0.1:1234") 1200
                (init (P := platform) all_fine)).2
             (mkAddr "tcp" "10.0.0.2:5000") (mkAddr "tcp" "110.1.2.3:443")
             (mkAddr "tcp" "10.0.0.2:50001") (mkAddr "tcp" "10.1.2.3:443")
             1400 1300).
    reflexivity.
Defined.

Lemma listener_entries_independent_witness :
  let A1 := mkAddr "tcp" "127.0.0.1:5000" in
  let A2 := mkAddr "tcp" "127.0.0.1:5001" in
  let A3 := mkAddr "udp" "127.0.0.1:5000" in
  (GetListenerByAddr A2
     (putListenerByAddr A1 (0%nat, A1) (init all_fine)).2).1 = None ∧
  (GetListenerByAddr A1
     (putListenerByAddr A3 (1%nat, A3)
        (putListenerByAddr A1 (0%nat, A1) (init all_fine)).2).2).1 =
    Some (1%nat, A3).
Proof.
  cbv zeta. split.
  - etransitivity.
    + apply (listener_entries_independent (P := platform)
               (init (P := platform) all_fine)
               (mkAddr "tcp" "127.0.0.1:5000") (mkAddr "tcp" "127.0.0.1:5001")
               (0%nat, mkAddr "tcp" "127.0.0.1:5000")
               (0%nat, mkAddr "tcp" "127.0.0.1:5000")).
      intros [=].
    + reflexivity.
  - apply (listener_entries_independent (P := platform)
             (init (P := platform) all_fine)
             (mkAddr "tcp" "127.0.0.1:5000") (mkAddr "udp" "127.0.0.1:5000")
             (0%nat, mkAddr "tcp" "127.0.0.1:5000")
             (1%nat, mkAddr "udp" "127.0.0.1:5000")).
    reflexivity.
Defined.

Lemma entry_survives_session_failure_witness :
  let broken := mkWorld false false false true 0 in
  let dial := DialWithOptions "10.0.0.1:1234" tt 10 3 (init broken) in
  let listen := ListenWithOptions "127.0.0.1:5000" tt 10 3 (init broken) in
  (dial.1 = Err (OtherError "bad shard count") ∧
   (GetMSSByAddr local_end (mkAddr "tcp" "10.0.0.1:1234") dial.2).1 = 1400) ∧
  (listen.1 = Err (OtherError "bad shard count") ∧
   (GetListenerByAddr (mkAddr "tcp" "127.0.0.1:5000") listen.2).1 =
     Some (0%nat, mkAddr "tcp" "127.0.0.1:5000")).
Proof.
  cbv zeta. split.
  - apply (proj1 (entry_survives_session_failure (P := platform)
                    (init (P := platform) (mkWorld false false false true 0))
                    "10.0.0.1:1234" tt 10 3 (OtherError "bad shard count")
                    (count_transport (mkWorld false false false true 0))
                    (count_transport (mkWorld false false false true 0)))
             (local_end, mkAddr "tcp" "10.0.0.1:1234", 1400));
      reflexivity.
  - apply (proj2 (entry_survives_session_failure (P := platform)
                    (init (P := platform) (mkWorld false false false true 0))
                    "127.0.0.1:5000" tt 10 3 (OtherError "bad shard count")
                    (count_transport (mkWorld false false false true 0))
                    (count_transport (mkWorld false false false true 0)))
             (0%nat, mkAddr "tcp" "127.0.0.1:5000"));
      reflexivity.
Defined.

Lemma cache_entries_never_deleted_witness :
  let st := run [CallDialWithOptions "10.0.0.1:1234" tt 10 3;
                 CallListenWithOptions "127.0.0.1:5000" tt 10 3]
              (init all_fine) in
  let h := [CallDialWithOptions "10.0.0.7:80" tt 10 3;
            CallListenMulWithOptions "127.0.0.1:5000" tt 10 3 "pw";
            CallSetMixed true] in
  is_Some (mssCache (run h st) !! "10.0.0.2:500010.0.0.1:1234") ∧
  is_Some (lisCache (run h st) !! "127.0.0.1:5000").
Proof.
  cbv zeta. split.
  - apply (cache_entries_never_deleted (P := platform)). by eexists.
  - apply (cache_entries_never_deleted (P := platform)). by eexists.
Defined.

Lemma lookup_results_have_origin_witness :
  let h := [CallDialWithOptions "10.0.0.1:1234" tt 10 3;
            CallListenWithOptions "127.0.0.1:5000" tt 10 3] in
  (∃ c, c ∈ dialed h (init all_fine) ∧
        AddrKey (LocalAddr c) (RemoteAddr c) =
          AddrKey local_end (mkAddr "udp" "10.0.0.1:1234") ∧
        GetMSS c = 1400) ∧
  (1%nat, mkAddr "tcp" "127.0.0.1:5000") ∈ listened h (init all_fine).
Proof.
  cbv zeta.
  pose proof (lookup_results_have_origin (P := platform) all_fine
                [CallDialWithOptions "10.0.0.1:1234" tt 10 3;
                 CallListenWithOptions "127.0.0.1:5000" tt 10 3])
    as [Hmss Hlis].
  split.
  - apply (Hmss local_end (mkAddr "udp" "10.0.0.1:1234") 1400).
    + reflexivity.
    + discriminate.
  - destruct (Hlis (mkAddr "udp" "127.0.0.1:5000")
                (1%nat, mkAddr "tcp" "127.0.0.1:5000") eq_refl) as [Hin _].
    exact Hin.
Defined.

Lemma validation_failure_is_a_no_op_witness :
  let c := CallListenWithOptions "0.0.0.0:5000" tt 10 3 in
  exec c (init all_fine) = init all_fine ∧
  call_error c (init all_fine) =
    Some (Wrap (Errorf "You can't set host to 0.0.0.0") "checkAddr").
Proof.
  cbv zeta.
  pose proof (validation_failure_is_a_no_op (P := platform)
                (CallListenWithOptions "0.0.0.0:5000" tt 10 3)
                (init (P := platform) all_fine)
                (Errorf "You can't set host to 0.0.0.0")) as Hnoop.
  apply Hnoop. reflexivity.
Defined.

Lemma failed_listen_records_nothing_witness :
  let busy := mkWorld false true false false 0 in
  let out := ListenWithOptions "127.0.0.1:5000" tt 10 3 (init busy) in
  out.1 = Err (Wrap (OtherError "address already in use") "net.ListenRAW") ∧
  caches_unchanged (init busy) out.2.
Proof.
  cbv zeta.
  apply (failed_listen_records_nothing (P := platform)
           (init (P := platform) (mkWorld false true false false 0))
           "127.0.0.1:5000" tt 10 3 (OtherError "address already in use")
           (count_transport (mkWorld false true false false 0)));
    reflexivity.
Defined.
